(** * youtube-clipper: the job orchestrator, embedded and verified

    A shallow embedding of the clip and recording services of the
    repository (utils/file.js, utils/time.js, services/clipService.js,
    routes/clipRoutes.js, services/recordService.js, state.js, config)
    together with the properties its specification states about them.

    Conventions of the embedding:
    - JavaScript strings are [string]s of 8-bit characters; an ASCII string
      is modelled exactly, a character above 127 one byte at a time.
    - JavaScript numbers that hold whole seconds, byte counts and epoch
      milliseconds are [Z]; quotients such as a size in MB are exact
      rationals [Q].
    - The file system, the registries of state.js and the effects the code
      performs (spawning a worker, unlinking, writing a log, broadcasting)
      are explicit: every operation takes a [world] and returns one, and
      appends what it did to the world's trace. *)

From Stdlib Require Import ZArith QArith Qround String Ascii List Lia Bool.
From stdpp Require Import gmap strings list fin_maps pretty.

Local Open Scope string_scope.
Local Open Scope Z_scope.

(* Let [simpl] and [cbn] compute string concatenation on constructors. *)
Local Arguments String.append !s1 s2 : simpl nomatch.

(** ** Strings as JavaScript uses them *)

Module Js.

(** [s.includes(sub)] *)
Fixpoint includes (s sub : string) : bool :=
  String.prefix sub s ||
  match s with
  | EmptyString => false
  | String _ s' => includes s' sub
  end.

(** [s.endsWith(suf)] *)
Fixpoint endsWith (s suf : string) : bool :=
  String.eqb s suf ||
  match s with
  | EmptyString => false
  | String _ s' => endsWith s' suf
  end.

(** [s.slice(-n)]: the last [n] characters of [s] (all of [s] when it is
    shorter). *)
Definition sliceLast (n : nat) (s : string) : string :=
  let len := String.length s in
  String.substring (len - n) (len - (len - n)) s.

(** [`${z}`] for a whole number. *)
Definition numToString (z : Z) : string := pretty z.

(** [`${v}`] for a value that may be [null]. *)
Definition nullable {A} (show : A -> string) (v : option A) : string :=
  match v with Some a => show a | None => "null" end.

Definition is_lower (c : ascii) : bool :=
  let n := nat_of_ascii c in (97 <=? n)%nat && (n <=? 122)%nat.
Definition is_upper (c : ascii) : bool :=
  let n := nat_of_ascii c in (65 <=? n)%nat && (n <=? 90)%nat.
Definition is_digit (c : ascii) : bool :=
  let n := nat_of_ascii c in (48 <=? n)%nat && (n <=? 57)%nat.

(** One character of [.replace(/[^a-z0-9]/gi, '_').toLowerCase()]: the
    class is matched ignoring case, so letters of both cases and digits
    stay; everything else becomes an underscore; then upper case is
    lowered. *)
Definition safe_char (c : ascii) : ascii :=
  if is_lower c || is_digit c then c
  else if is_upper c then ascii_of_nat (nat_of_ascii c + 32)
  else "_"%char.

Fixpoint map_string (f : ascii -> ascii) (s : string) : string :=
  match s with
  | EmptyString => EmptyString
  | String c s' => String (f c) (map_string f s')
  end.

Definition titleSafe (s : string) : string := map_string safe_char s.

(** The line feed. *)
Definition nl : string := String (ascii_of_nat 10) EmptyString.

(** Every character of [s] satisfies [f]. *)
Fixpoint all (f : ascii -> bool) (s : string) : bool :=
  match s with
  | EmptyString => true
  | String c s' => f c && all f s'
  end.

(** [c] occurs in [s]. *)
Fixpoint occurs (c : ascii) (s : string) : bool :=
  match s with
  | EmptyString => false
  | String a s' => Ascii.eqb c a || occurs c s'
  end.

(** The characters of [a-z0-9_]. *)
Definition is_word_char (c : ascii) : bool :=
  is_lower c || is_digit c || Ascii.eqb c "_".

(** [a || b] on strings: the empty string is falsy. *)
Definition or_else (a b : string) : string :=
  match a with EmptyString => b | _ => a end.

End Js.

(** ** SHA-256 (crypto.createHash('sha256')), FIPS 180-4 *)

Module Sha256.

Definition w32 (x : Z) : Z := x mod 2 ^ 32.
Definition rotr (n x : Z) : Z :=
  Z.lor (Z.shiftr x n) (w32 (Z.shiftl x (32 - n))).
Definition add32 (x y : Z) : Z := w32 (x + y).

Definition Ch (x y z : Z) : Z :=
  Z.lxor (Z.land x y) (Z.land (Z.lxor x 0xFFFFFFFF) z).
Definition Maj (x y z : Z) : Z :=
  Z.lxor (Z.lxor (Z.land x y) (Z.land x z)) (Z.land y z).
Definition Sigma0 (x : Z) : Z := Z.lxor (Z.lxor (rotr 2 x) (rotr 13 x)) (rotr 22 x).
Definition Sigma1 (x : Z) : Z := Z.lxor (Z.lxor (rotr 6 x) (rotr 11 x)) (rotr 25 x).
Definition sigma0 (x : Z) : Z := Z.lxor (Z.lxor (rotr 7 x) (rotr 18 x)) (Z.shiftr x 3).
Definition sigma1 (x : Z) : Z := Z.lxor (Z.lxor (rotr 17 x) (rotr 19 x)) (Z.shiftr x 10).

(** The tables of the standard are fractional parts of roots of primes,
    on 32 bits: cube roots of the first 64 primes for the round constants,
    square roots of the first 8 for the initial hash value. *)
Definition is_prime (n : Z) : bool :=
  forallb (fun d => negb (n mod Z.of_nat d =? 0)) (seq 2 (Z.to_nat n - 2)).

Definition primes : list Z :=
  firstn 64 (List.filter is_prime (List.map Z.of_nat (seq 2 310))).

(** The integer cube root of [n], its bits decided from bit [bits - 1] down. *)
Fixpoint cube_root (bits : nat) (n r : Z) : Z :=
  match bits with
  | O => r
  | S b =>
      let c := r + 2 ^ Z.of_nat b in
      cube_root b n (if c * c * c <=? n then c else r)
  end.

Definition K : list Z :=
  Eval vm_compute in
    List.map (fun p => cube_root 36 (p * 2 ^ 96) 0 mod 2 ^ 32) primes.

Definition H0 : list Z :=
  Eval vm_compute in
    List.map (fun p => Z.sqrt (p * 2 ^ 64) mod 2 ^ 32) (firstn 8 primes).

Fixpoint bytes_of (s : string) : list Z :=
  match s with
  | EmptyString => []
  | String c s' => Z.of_nat (nat_of_ascii c) :: bytes_of s'
  end.

(** Big-endian bytes of [x], [n] of them. *)
Fixpoint be_bytes (n : nat) (x : Z) : list Z :=
  match n with
  | O => []
  | S n' => (Z.shiftr x (8 * Z.of_nat n')) mod 256 :: be_bytes n' x
  end.

(** Padding: a 1 bit, zeros up to 56 mod 64, the bit length on 8 bytes. *)
Definition pad (msg : list Z) : list Z :=
  let len := Z.of_nat (List.length msg) in
  let zeros := Z.to_nat ((55 - len) mod 64) in
  msg ++ 0x80 :: List.repeat 0 zeros ++ be_bytes 8 (8 * len).

Fixpoint words (fuel : nat) (bs : list Z) : list Z :=
  match fuel, bs with
  | S f, b0 :: b1 :: b2 :: b3 :: rest =>
      (b0 * 16777216 + b1 * 65536 + b2 * 256 + b3) :: words f rest
  | _, _ => []
  end.

(** The message schedule, kept newest first: [rev_w] holds W[t-1], W[t-2],
    ... and is extended up to 64 words. *)
Fixpoint schedule (n : nat) (rev_w : list Z) : list Z :=
  match n with
  | O => rev_w
  | S n' =>
      let w := add32 (add32 (sigma1 (nth 1 rev_w 0)) (nth 6 rev_w 0))
                     (add32 (sigma0 (nth 14 rev_w 0)) (nth 15 rev_w 0)) in
      schedule n' (w :: rev_w)
  end.

Record regs := Regs { ra : Z; rb : Z; rc : Z; rd : Z; re : Z; rf : Z; rg : Z; rh : Z }.

Definition round (r : regs) (kw : Z * Z) : regs :=
  let t1 := add32 (add32 (add32 (rh r) (Sigma1 (re r)))
                         (add32 (Ch (re r) (rf r) (rg r)) (fst kw))) (snd kw) in
  let t2 := add32 (Sigma0 (ra r)) (Maj (ra r) (rb r) (rc r)) in
  Regs (add32 t1 t2) (ra r) (rb r) (rc r) (add32 (rd r) t1) (re r) (rf r) (rg r).

Definition regs_of (h : list Z) : regs :=
  Regs (nth 0 h 0) (nth 1 h 0) (nth 2 h 0) (nth 3 h 0)
       (nth 4 h 0) (nth 5 h 0) (nth 6 h 0) (nth 7 h 0).

Definition compress (h : list Z) (block : list Z) : list Z :=
  let w := List.rev (schedule 48 (List.rev block)) in
  let r0 := regs_of h in
  let r := fold_left round (combine K w) r0 in
  [ add32 (ra r0) (ra r); add32 (rb r0) (rb r); add32 (rc r0) (rc r);
    add32 (rd r0) (rd r); add32 (re r0) (re r); add32 (rf r0) (rf r);
    add32 (rg r0) (rg r); add32 (rh r0) (rh r) ].

Fixpoint blocks (fuel : nat) (h : list Z) (ws : list Z) : list Z :=
  match fuel with
  | O => h
  | S f =>
      match ws with
      | [] => h
      | _ => blocks f (compress h (firstn 16 ws)) (skipn 16 ws)
      end
  end.

Definition hex_digit (n : Z) : ascii :=
  if n <? 10 then ascii_of_nat (Z.to_nat (48 + n))
  else ascii_of_nat (Z.to_nat (87 + n)).

(** [n] hexadecimal digits of [x], most significant first. *)
Fixpoint hex_of (n : nat) (x : Z) : string :=
  match n with
  | O => EmptyString
  | S n' => String (hex_digit ((Z.shiftr x (4 * Z.of_nat n')) mod 16)) (hex_of n' x)
  end.

Fixpoint hex_words (ws : list Z) : string :=
  match ws with
  | [] => EmptyString
  | w :: ws' => hex_of 8 w ++ hex_words ws'
  end.

Definition digest (msg : string) : list Z :=
  let bs := pad (bytes_of msg) in
  let ws := words (List.length bs) bs in
  blocks (List.length ws) H0 ws.

(** [.update(msg).digest('hex')] *)
Definition hexdigest (msg : string) : string := hex_words (digest msg).

End Sha256.

(** ** Number formatting *)

Module Fmt.

(** [n] written on at least [width] decimal digits, zero padded
    ([String(n).padStart(width, '0')] for a natural [n]). *)
Fixpoint digits (width : nat) (n : Z) : string :=
  match width with
  | O => EmptyString
  | S w' => digits w' (n / 10) ++ String (ascii_of_nat (Z.to_nat (48 + n mod 10))) EmptyString
  end.

(** [x.toFixed(d)]: the decimal numeral with [d] fraction digits nearest to
    [x], ties away from zero, with a minus sign for every negative [x].
    [x] is the exact value of the JavaScript number. *)
Definition toFixed (d : nat) (x : Q) : string :=
  let neg := Qlt_le_dec x 0 in
  let ax := if neg then Qopp x else x in
  let n := Qfloor (Qplus (Qmult ax (inject_Z (10 ^ Z.of_nat d))) (1 # 2)) in
  let ip := n / 10 ^ Z.of_nat d in
  let fp := n mod 10 ^ Z.of_nat d in
  (if neg then "-" else "")
  ++ Js.numToString ip
  ++ match d with O => "" | _ => "." ++ digits d fp end.

(** Civil date of a day count since 1970-01-01 (proleptic Gregorian). *)
Definition civil (days : Z) : Z * Z * Z :=
  let z := days + 719468 in
  let era := z / 146097 in
  let doe := z - era * 146097 in
  let yoe := (doe - doe / 1460 + doe / 36524 - doe / 146096) / 365 in
  let doy := doe - (365 * yoe + yoe / 4 - yoe / 100) in
  let mp := (5 * doy + 2) / 153 in
  let d := doy - (153 * mp + 2) / 5 + 1 in
  let m := if mp <? 10 then mp + 3 else mp - 9 in
  let y := yoe + era * 400 + (if m <=? 2 then 1 else 0) in
  (y, m, d).

(** [new Date(ms).toISOString()] for the years 0000 to 9999. *)
Definition toISOString (ms : Z) : string :=
  let days := ms / 86400000 in
  let rest := ms mod 86400000 in
  let '(y, m, d) := civil days in
  digits 4 y ++ "-" ++ digits 2 m ++ "-" ++ digits 2 d ++ "T"
  ++ digits 2 (rest / 3600000) ++ ":" ++ digits 2 (rest / 60000 mod 60) ++ ":"
  ++ digits 2 (rest / 1000 mod 60) ++ "." ++ digits 3 (rest mod 1000) ++ "Z".

End Fmt.

(** ** The data model: state.js, the file system and the effects *)

(** What [fs.statSync] reports of a file. *)
Record file := File { size : Z; mtimeMs : Z }.

(** An entry of [state.activeClips]. [proc] is [None] once the close
    handler has put [null] there; [ready] and [stderr] are absent until
    then. *)
Record clip := Clip {
  proc : option nat;
  outputPath : string;
  percent : Q;
  message : string;
  background : bool;
  filename : string;
  ready : option bool;
  stderr : option string
}.

(** [resumeInfo] of downloadClip. *)
Record resume_info := ResumeInfo {
  ri_size : Z;
  ri_sizeMB : string;
  ri_isPartial : bool;
  ri_ageMinutes : string
}.

(** What [getClipIdAndPath] returns. *)
Record clip_ids := ClipIds {
  clipId : string;
  idPath : string;
  idFilename : string;
  ext : string
}.

(** How the promise returned by downloadClip is settled. *)
Inductive outcome :=
  | Resolved (ids : clip_ids)
  | Rejected (error_message : string).

(** The closure of one downloadClip call: what its handlers captured. *)
Record job := Job {
  jids : clip_ids;
  jresumeInfo : option resume_info;
  jstderrBuf : string;
  jstall : bool;
  jsettled : option outcome
}.

Inductive status := recording | finished | stopped.

(** A recording object of [state.recordings]. *)
Record rec := Rec {
  rid : string;
  rurl : string;
  rtitle : string;
  startedAt : Z;
  outPath : string;
  rproc : nat;
  rstatus : status;
  sizeBytes : Z;
  lastUpdate : Z;
  maxDuration : Z;
  stderrTail : string;
  updateInterval : bool;
  exitCode : option (option Z);
  exitSignal : option (option string);
  endedAt : option Z;
  cleanupTimer : option nat
}.

(** Messages of [wsBroadcast]. *)
Inductive ws_msg :=
  | Progress (percent : Q) (message : string)
  | RecordingProgress (id : string) (st : status) (elapsed : Z) (sizeMB : string)
  | RecordingStatus (id : string) (st : status) (outPath : option string)
  | RecordingRemoved (id : string).

(** The effects the code performs on the outside. *)
Inductive event :=
  | Mkdir (dir : string)
  | Unlink (path : string)
  | WriteFile (path content : string)
  | Spawn (pid : nat) (cmd : string) (args : list string)
  | Kill (pid : nat) (reason : string)
  | Remux (src dst : string)
  | Broadcast (msg : ws_msg).

(** The state of the server process. Objects shared by reference are kept
    in a store under the pid of the worker they were created with: the
    closure of a downloadClip call in [jobs], a recording object in [heap],
    with [recordings] mapping ids to such addresses as the Map of state.js
    maps them to objects. [timers] holds the armed cleanup timers, each
    with the recording object and the id its callback captured. *)
Record world := World {
  files : gmap string file;
  dirs : gset string;
  currentProgress : Q * string;
  activeClips : gmap string clip;
  jobs : gmap nat job;
  running : gset nat;
  nextPid : nat;
  recordings : gmap string nat;
  heap : gmap nat rec;
  timers : gmap nat (nat * string);
  nextTimer : nat;
  recordingCleanupTimeoutMs : Z;
  trace : list event
}.

Definition set_files (f : gmap string file) (w : world) : world :=
  World f (dirs w) (currentProgress w) (activeClips w) (jobs w) (running w)
        (nextPid w) (recordings w) (heap w) (timers w)
        (nextTimer w) (recordingCleanupTimeoutMs w) (trace w).
Definition set_dirs (d : gset string) (w : world) : world :=
  World (files w) d (currentProgress w) (activeClips w) (jobs w) (running w)
        (nextPid w) (recordings w) (heap w) (timers w)
        (nextTimer w) (recordingCleanupTimeoutMs w) (trace w).
Definition set_currentProgress (p : Q * string) (w : world) : world :=
  World (files w) (dirs w) p (activeClips w) (jobs w) (running w)
        (nextPid w) (recordings w) (heap w) (timers w)
        (nextTimer w) (recordingCleanupTimeoutMs w) (trace w).
Definition set_activeClips (a : gmap string clip) (w : world) : world :=
  World (files w) (dirs w) (currentProgress w) a (jobs w) (running w)
        (nextPid w) (recordings w) (heap w) (timers w)
        (nextTimer w) (recordingCleanupTimeoutMs w) (trace w).
Definition set_jobs (j : gmap nat job) (w : world) : world :=
  World (files w) (dirs w) (currentProgress w) (activeClips w) j (running w)
        (nextPid w) (recordings w) (heap w) (timers w)
        (nextTimer w) (recordingCleanupTimeoutMs w) (trace w).
Definition set_running (r : gset nat) (w : world) : world :=
  World (files w) (dirs w) (currentProgress w) (activeClips w) (jobs w) r
        (nextPid w) (recordings w) (heap w) (timers w)
        (nextTimer w) (recordingCleanupTimeoutMs w) (trace w).
Definition set_nextPid (n : nat) (w : world) : world :=
  World (files w) (dirs w) (currentProgress w) (activeClips w) (jobs w) (running w)
        n (recordings w) (heap w) (timers w)
        (nextTimer w) (recordingCleanupTimeoutMs w) (trace w).
Definition set_recordings (r : gmap string nat) (w : world) : world :=
  World (files w) (dirs w) (currentProgress w) (activeClips w) (jobs w) (running w)
        (nextPid w) r (heap w) (timers w)
        (nextTimer w) (recordingCleanupTimeoutMs w) (trace w).
Definition set_heap (h : gmap nat rec) (w : world) : world :=
  World (files w) (dirs w) (currentProgress w) (activeClips w) (jobs w) (running w)
        (nextPid w) (recordings w) h (timers w)
        (nextTimer w) (recordingCleanupTimeoutMs w) (trace w).
Definition set_timers (t : gmap nat (nat * string)) (w : world) : world :=
  World (files w) (dirs w) (currentProgress w) (activeClips w) (jobs w) (running w)
        (nextPid w) (recordings w) (heap w) t
        (nextTimer w) (recordingCleanupTimeoutMs w) (trace w).
Definition set_nextTimer (n : nat) (w : world) : world :=
  World (files w) (dirs w) (currentProgress w) (activeClips w) (jobs w) (running w)
        (nextPid w) (recordings w) (heap w) (timers w)
        n (recordingCleanupTimeoutMs w) (trace w).

Definition set_recordingCleanupTimeoutMs (ms : Z) (w : world) : world :=
  World (files w) (dirs w) (currentProgress w) (activeClips w) (jobs w) (running w)
        (nextPid w) (recordings w) (heap w) (timers w)
        (nextTimer w) ms (trace w).

(** Record an effect at the end of the trace. *)
Definition emit (e : event) (w : world) : world :=
  World (files w) (dirs w) (currentProgress w) (activeClips w) (jobs w) (running w)
        (nextPid w) (recordings w) (heap w) (timers w)
        (nextTimer w) (recordingCleanupTimeoutMs w) (trace w ++ [e]).

(** The server as app.js starts it: empty registries, progress 'Idle',
    cleanup after 30 minutes. *)
Definition initial (fs : gmap string file) (ds : gset string) : world :=
  World fs ds (0%Q, "Idle") ∅ ∅ ∅ 1%nat ∅ ∅ ∅ 1%nat (30 * 60 * 1000) [].

(** *** File system primitives

    A path the code stats or unlinks names a regular file; directories are
    kept apart in [dirs]. *)

Definition unlinkSync (p : string) (w : world) : world :=
  emit (Unlink p) (set_files (delete p (files w)) w).

(** [fs.writeFileSync(p, text, 'utf8')] at time [now]. *)
Definition writeFileSync (p text : string) (now : Z) (w : world) : world :=
  emit (WriteFile p text)
       (set_files (<[p := File (Z.of_nat (String.length text)) now]> (files w)) w).

(** [wsBroadcast(data)] *)
Definition wsBroadcast (m : ws_msg) (w : world) : world := emit (Broadcast m) w.

(** [killChildProcess(proc, reason)]: SIGINT to the process group. *)
Definition killChildProcess (pid : nat) (reason : string) (w : world) : world :=
  emit (Kill pid reason) w.

(** [a < b] on exact rationals, as a boolean. *)
Definition Qltb (a b : Q) : bool := negb (Qle_bool b a).

(** [x || 0] on numbers: zero is falsy. *)
Definition num_or_zero (x : Q) : Q := if Qeq_bool x 0 then 0%Q else x.

(** ** config/index.js *)

Definition STDERR_MAX_BYTES : nat := 100 * 1024.

Definition QUALITY_FORMAT_MAP (quality : string) : option string :=
  if String.eqb quality "best" then Some "bestvideo[ext=mp4]+bestaudio[ext=m4a]/best[ext=mp4]/best"
  else if String.eqb quality "2160" then Some "bestvideo[height<=2160]+bestaudio/best"
  else if String.eqb quality "1440" then Some "bestvideo[height<=1440]+bestaudio/best"
  else if String.eqb quality "1080" then Some "bestvideo[height<=1080]+bestaudio/best"
  else if String.eqb quality "720" then Some "bestvideo[height<=720]+bestaudio/best"
  else if String.eqb quality "480" then Some "bestvideo[height<=480]+bestaudio/best"
  else if String.eqb quality "360" then Some "bestvideo[height<=360]+bestaudio/best"
  else if String.eqb quality "audio" then Some "bestaudio[ext=m4a]/bestaudio"
  else None.

(** [path.join(dir, name)] for a normalised [dir] and a plain file name. *)
Definition path_join (dir name : string) : string :=
  if Js.endsWith dir "/" then dir ++ name else dir ++ "/" ++ name.

(** ** utils/time.js *)

(** [timeToSeconds]: a number is returned as it is. A missing bound
    ([null] or [undefined]) goes through [String(..).split(':').map(Number)],
    gives [NaN] and so [parts[0] || 0], which is 0. Bounds given as
    'HH:MM:SS' text are outside the embedding. *)
Definition timeToSeconds (t : option Z) : Z :=
  match t with Some n => n | None => 0 end.

(** ** utils/file.js *)

(** The result of validateResumable. *)
Record validation := Validation {
  resumable : bool;
  reason : string;
  sizeMB : Q
}.

Section Server.

(** [config.TEMP_DIR] is [path.join(__dirname, '../../temp')]: it depends
    on where the server is installed. *)
Variable TEMP_DIR : string.

Definition ensureTempDir (w : world) : world :=
  if bool_decide (TEMP_DIR ∈ dirs w) then w
  else emit (Mkdir TEMP_DIR) (set_dirs ({[TEMP_DIR]} ∪ dirs w) w).

(** The 12 hexadecimal digits that name a clip. *)
Definition clipHash (url : string) (startSeconds endSeconds : Z) (quality : string) : string :=
  String.substring 0 12
    (Sha256.hexdigest
       (url ++ "|" ++ Js.numToString startSeconds ++ "|"
            ++ Js.numToString endSeconds ++ "|" ++ quality)).

Definition clipExt (quality : string) : string :=
  if String.eqb quality "audio" then "m4a" else "mp4".

Definition clipFilename (url : string) (startSeconds endSeconds : Z) (quality : string) : string :=
  Js.titleSafe (Js.or_else url "clip") ++ "_clip_"
    ++ clipHash url startSeconds endSeconds quality ++ "." ++ clipExt quality.

(** What getClipIdAndPath computes from its four inputs. *)
Definition clipIds (url : string) (startSeconds endSeconds : Z) (quality : string)
    : clip_ids :=
  let hash := clipHash url startSeconds endSeconds quality in
  let filename := clipFilename url startSeconds endSeconds quality in
  ClipIds hash (path_join TEMP_DIR filename) filename (clipExt quality).

(** [getClipIdAndPath({ url, startSeconds, endSeconds, quality })]: the
    temp directory is made sure of first. The caller has already put 'best'
    for a missing quality. *)
Definition getClipIdAndPath (url : string) (startSeconds endSeconds : Z)
    (quality : string) (w : world) : clip_ids * world :=
  let w1 := ensureTempDir w in
  (clipIds url startSeconds endSeconds quality, w1).

(** [isPartialFile] *)
Definition isPartialFile (filePath : string) : bool :=
  Js.endsWith filePath ".part" || Js.endsWith filePath ".ytdl".

(** [validateResumable(filePath)], called at time [now]. *)
Definition validateResumable (filePath : string) (now : Z) (w : world) : validation :=
  match files w !! filePath with
  | None => Validation false "File does not exist" 0
  | Some stats =>
      let sizeMB := (size stats # 1048576)%Q in
      let ageMinutes := ((now - mtimeMs stats) # 60000)%Q in
      if size stats <? 1024 then
        Validation false "File too small (corrupted)" sizeMB
      else if Qltb 1440 ageMinutes && Qltb sizeMB 1 then
        Validation false "Stale and undersized" sizeMB
      else
        Validation true "Valid partial download" sizeMB
  end.

(** ** services/clipService.js *)

(** The argument vector downloadClip hands to yt-dlp. *)
Definition ytdlpArgs (url : string) (startSeconds endSeconds : Z)
    (quality outputPath : string) : list string :=
  let chosenFormat :=
    match QUALITY_FORMAT_MAP quality with
    | Some f => f
    | None => "bestvideo[ext=mp4]+bestaudio[ext=m4a]/best[ext=mp4]/best"
    end in
  [ "-f"; chosenFormat;
    "--download-sections";
    "*" ++ Js.numToString startSeconds ++ "-" ++ Js.numToString endSeconds;
    "--force-keyframes-at-cuts";
    "--retries"; "15";
    "--fragment-retries"; "20";
    "--retry-sleep"; "3";
    "--file-access-retries"; "5";
    "--continue";
    "--no-overwrites";
    "--concurrent-fragments"; "3";
    "--throttled-rate"; "100K";
    "--merge-output-format"; "mp4";
    "--progress";
    "--newline";
    "--progress-template"; "%(progress._percent_str)s %(progress.speed)s";
    "-o"; outputPath;
    url ].

(** The look downloadClip takes at a file already at the output path:
    a stale tiny file is removed, anything else is noted for the log. *)
Definition resumeDetection (ids : clip_ids) (now : Z) (w : world)
    : option resume_info * world :=
  match files w !! idPath ids with
  | None => (None, w)
  | Some st =>
      let isPartial := Js.endsWith (idPath ids) ".part" in
      let ageMinutes := ((now - mtimeMs st) # 60000)%Q in
      let isStale :=
        Qltb 1440 ageMinutes
        && negb (bool_decide (is_Some (activeClips w !! clipId ids))) in
      if isStale && (size st <? 1024) then (None, unlinkSync (idPath ids) w)
      else
        (Some (ResumeInfo (size st) (Fmt.toFixed 2 (size st # 1048576))
                          isPartial (Fmt.toFixed 1 ageMinutes)), w)
  end.

(** The middle of downloadClip: the worker is spawned detached, its entry
    replaces whatever [state.activeClips] held under the clip id, and the
    handlers close over the job. *)
Definition spawnAndRegister (ids : clip_ids) (args : list string) (background : bool)
    (resumeInfo : option resume_info) (w : world) : world :=
  let pid := nextPid w in
  let w1 := emit (Spawn pid "yt-dlp" args)
              (set_running ({[pid]} ∪ running w) (set_nextPid (S pid) w)) in
  let w2 := set_activeClips
              (<[clipId ids := Clip (Some pid) (idPath ids) 0 "Starting" background
                                    (idFilename ids) None None]> (activeClips w1)) w1 in
  set_jobs (<[pid := Job ids resumeInfo "" true None]> (jobs w2)) w2.

(** [downloadClip] up to the point where it returns its promise. The
    result is the pid of the worker; the promise is the [jsettled] field of
    the job stored under it. The stall detector only logs and the kill
    switch handed to [onKillRequested] is used by the foreground handler
    after the worker ended; neither is modelled further. *)
Definition downloadClip (url : string) (startSeconds endSeconds : Z)
    (quality : string) (background : bool) (now : Z) (w : world) : nat * world :=
  let w1 := ensureTempDir w in
  let '(ids, w2) := getClipIdAndPath url startSeconds endSeconds quality w1 in
  let '(resumeInfo, w3) := resumeDetection ids now w2 in
  let args := ytdlpArgs url startSeconds endSeconds quality (idPath ids) in
  (nextPid w3, spawnAndRegister ids args background resumeInfo w3).

(** A line of worker output as the two regular expressions of the stderr
    handler classify it. *)
Record parsed := Parsed {
  downloadMatch : option (Q * option string);
  timeMatch : option Z
}.

Definition update_clip_progress (id : string) (pct : Q) (msg : string) (w : world) : world :=
  let w1 := set_currentProgress (pct, msg) w in
  let w2 :=
    match activeClips w1 !! id with
    | Some c =>
        set_activeClips
          (<[id := Clip (proc c) (outputPath c) pct msg (background c)
                        (filename c) (ready c) (stderr c)]> (activeClips w1)) w1
    | None => w1
    end in
  wsBroadcast (Progress pct msg) w2.

(** [proc.stderr.on('data')] of the job under [pid]: the chunk [s] goes to
    the tail buffer; a download percentage and then an ffmpeg time, when
    matched, update the registry entry and are broadcast. [duration] is the
    clip duration the closure captured ([endSeconds - startSeconds]). *)
Definition on_stderr (pid : nat) (s : string) (p : parsed) (duration : Z)
    (w : world) : world :=
  match jobs w !! pid with
  | None => w
  | Some j =>
      let buf := Js.sliceLast STDERR_MAX_BYTES (jstderrBuf j ++ s) in
      let w1 := set_jobs (<[pid := Job (jids j) (jresumeInfo j) buf (jstall j)
                                      (jsettled j)]> (jobs w)) w in
      let w2 :=
        match downloadMatch p with
        | Some (pct, speed) =>
            let msg := match speed with
                       | Some sp => "Downloading (" ++ sp ++ ")"
                       | None => "Downloading"
                       end in
            update_clip_progress (clipId (jids j)) pct msg w1
        | None => w1
        end in
      match timeMatch p with
      | Some secs =>
          if 0 <? duration then
            let pc := Qmult (secs # Z.to_pos duration) (inject_Z 100) in
            let pc := if Qltb (inject_Z 100) pc then inject_Z 100 else pc in
            update_clip_progress (clipId (jids j)) pc "Processing" w2
          else w2
      | None => w2
      end
  end.

(** Settle the promise of a job; a promise settles once. *)
Definition settle (pid : nat) (o : outcome) (w : world) : world :=
  match jobs w !! pid with
  | Some j =>
      match jsettled j with
      | None => set_jobs (<[pid := Job (jids j) (jresumeInfo j) (jstderrBuf j)
                                       (jstall j) (Some o)]> (jobs w)) w
      | Some _ => w
      end
  | None => w
  end.

(** The message of the error a failed worker rejects with. *)
Definition exitMessage (code : option Z) (signal : option string) : string :=
  "yt-dlp exited with code " ++ Js.nullable Js.numToString code
    ++ " signal " ++ Js.nullable (fun s => s) signal.

(** The header of the diagnostic log: six lines joined by a line feed, the
    last one ending in a line feed of its own. *)
Definition logHeader (code : option Z) (signal : option string) (now : Z)
    (resumeInfo : option resume_info) (partialSize : Z) : string :=
  String.concat Js.nl
    [ "Exit code: " ++ Js.nullable Js.numToString code
        ++ " signal: " ++ Js.nullable (fun s => s) signal;
      "Timestamp: " ++ Fmt.toISOString now;
      "Resume info: "
        ++ match resumeInfo with
           | Some ri => ri_sizeMB ri ++ " MB (" ++ ri_ageMinutes ri ++ "min old)"
           | None => "new download"
           end;
      "Partial file size: " ++ Fmt.toFixed 2 (partialSize # 1048576) ++ " MB";
      "Can resume: " ++ (if 0 <? partialSize then "yes" else "no");
      "--- stderr ---" ++ Js.nl ].

(** [proc.on('close', (code, signal) => ...)] of the job under [pid], at
    time [now]. *)
Definition on_close (pid : nat) (code : option Z) (signal : option string)
    (now : Z) (w : world) : world :=
  match jobs w !! pid with
  | None => w
  | Some j =>
      let ids := jids j in
      let ok := bool_decide (code = Some 0) in
      (* the stall detector is cleared and the process is gone *)
      let w0 := set_running (running w ∖ {[pid]})
                  (set_jobs (<[pid := Job ids (jresumeInfo j) (jstderrBuf j) false
                                          (jsettled j)]> (jobs w)) w) in
      let w1 :=
        match activeClips w0 !! clipId ids with
        | Some c =>
            set_activeClips
              (<[clipId ids := Clip None (outputPath c) 100
                                    (if ok then "Complete" else "Error")
                                    (background c) (filename c) (Some ok)
                                    (Some (jstderrBuf j))]> (activeClips w0)) w0
        | None => w0
        end in
      if ok then
        let w2 := set_currentProgress (inject_Z 100, "Complete") w1 in
        let w3 := wsBroadcast (Progress (inject_Z 100) "Complete") w2 in
        settle pid (Resolved ids) w3
      else
        let logPath := idPath ids ++ ".yt-dlp.log" in
        let partialSize :=
          match files w1 !! idPath ids with Some st => size st | None => 0 end in
        let header := logHeader code signal now (jresumeInfo j) partialSize in
        let w2 := writeFileSync logPath (header ++ jstderrBuf j) now w1 in
        settle pid (Rejected (exitMessage code signal)) w2
  end.

(** [proc.on('error', err => ...)]: the spawn itself failed. *)
Definition on_error (pid : nat) (err : string) (w : world) : world :=
  match jobs w !! pid with
  | None => w
  | Some j =>
      let w1 :=
        match activeClips w !! clipId (jids j) with
        | Some c =>
            set_activeClips
              (<[clipId (jids j) := Clip (proc c) (outputPath c) (percent c) "Error"
                                         (background c) (filename c) (ready c)
                                         (stderr c)]> (activeClips w)) w
        | None => w
        end in
      settle pid (Rejected err) w1
  end.

(** ** routes/clipRoutes.js *)

(** The body of a clip request as express.json() parsed it. A missing
    [url] is the empty string (both are falsy); a missing bound, flag or
    quality is [None]. *)
Record clip_request := ClipRequest {
  r_url : string;
  r_start : option Z;
  r_end : option Z;
  r_quality : option string;
  r_background : option bool
}.

(** [info.videoDetails] as the routes read it; [lengthSeconds] is [None]
    when [parseInt] gives [NaN]. *)
Record video_details := VideoDetails {
  vtitle : string;
  lengthSeconds : option Z;
  isLiveContent : bool
}.

(** What awaiting [fetchVideoInfo(url)] gives: the promise rejects with an
    error message or resolves with the details. *)
Inductive fetched :=
  | FetchFailed (error_message : string)
  | Fetched (v : video_details).

Inductive body :=
  | BError (error : string)
  | BStarted (id filename : string) (action : option string)
  | BInProgress (id : string) (percent : Q) (message : string)
  | BReady (id filename : string) (sizeMB : Q).

(** How a handler leaves its request: a JSON answer with its HTTP status,
    a file sent with [res.download], or suspended on the promise of the
    worker it awaits. *)
Inductive response :=
  | Json (http : Z) (b : body)
  | Download (path name : string)
  | Awaiting (pid : nat).

(** [ytdl.validateURL], of the ytdl-core package. *)
Variable validateURL : string -> bool.

Definition nonempty (s : string) : bool :=
  match s with EmptyString => false | _ => true end.

Definition or_default {A} (d : A) (v : option A) : A :=
  match v with Some a => a | None => d end.

(** [router.post('/')]: POST /api/clip, from the request to the answer or
    to the point where the handler awaits the worker. [info] is what the
    awaited [fetchVideoInfo] gives and [w] the state when it gives it. *)
Definition clipPost (req : clip_request) (info : fetched) (now : Z) (w : world)
    : response * world :=
  let url := r_url req in
  let background := or_default false (r_background req) in
  let quality := or_default "best" (r_quality req) in
  if negb (nonempty url) || negb (validateURL url) then
    (Json 400 (BError "Invalid YouTube URL"), w)
  else
    let startSeconds := timeToSeconds (r_start req) in
    let endSeconds := timeToSeconds (r_end req) in
    if startSeconds >=? endSeconds then
      (Json 400 (BError "Start time must be before end time"), w)
    else if (startSeconds <? 0) || (endSeconds <? 0) then
      (Json 400 (BError "Times must be positive"), w)
    else
      match info with
      | FetchFailed msg =>
          (Json 500 (BError ("Failed to process video clip: " ++ msg)), w)
      | Fetched v =>
          let proceed :=
            let w1 := wsBroadcast (Progress 0 "Starting")
                        (set_currentProgress (0%Q, "Starting") w) in
            if background then
              let '(ids, w2) := getClipIdAndPath url startSeconds endSeconds quality w1 in
              let '(_, w3) := downloadClip url startSeconds endSeconds quality true now w2 in
              (Json 200 (BStarted (clipId ids) (idFilename ids) None), w3)
            else
              let '(pid, w2) := downloadClip url startSeconds endSeconds quality false now w1 in
              (Awaiting pid, w2) in
          if isLiveContent v then
            (Json 400 (BError "Video appears to be a live stream. Use /api/record/start to record live streams."), w)
          else
            match lengthSeconds v with
            | Some duration =>
                if endSeconds >? duration then
                  (Json 400 (BError ("End time exceeds video duration ("
                                       ++ Js.numToString duration ++ "s)")), w)
                else proceed
            | None => proceed
            end
      end.

(** Whether the registry holds an entry with a live process handle for
    [id]: [state.activeClips.has(id) && state.activeClips.get(id).proc]. *)
Definition activeProc (id : string) (w : world) : option clip :=
  match activeClips w !! id with
  | Some c => match proc c with Some _ => Some c | None => None end
  | None => None
  end.

(** [router.post('/resume')]: POST /api/clip/resume. *)
Definition clipResume (req : clip_request) (now : Z) (w : world)
    : response * world :=
  let url := r_url req in
  let quality := or_default "best" (r_quality req) in
  let background := or_default true (r_background req) in
  match r_start req, r_end req with
  | Some start, Some end_ =>
      if negb (nonempty url) then (Json 400 (BError "Missing url/start/end"), w)
      else
        let startSeconds := timeToSeconds (Some start) in
        let endSeconds := timeToSeconds (Some end_) in
        let '(ids, w1) := getClipIdAndPath url startSeconds endSeconds quality w in
        match activeProc (clipId ids) w1 with
        | Some c =>
            (Json 200 (BInProgress (clipId ids) (num_or_zero (percent c)) (message c)), w1)
        | None =>
            let finish (w2 : world) :=
              let action :=
                if bool_decide (is_Some (files w2 !! idPath ids))
                then "resuming" else "starting" in
              let '(_, w3) := downloadClip url startSeconds endSeconds quality true now w2 in
              if background then
                (Json 200 (BStarted (clipId ids) (idFilename ids) (Some action)), w3)
              else
                let '(pid, w4) := downloadClip url startSeconds endSeconds quality false now w3 in
                (Awaiting pid, w4) in
            match files w1 !! idPath ids with
            | Some _ =>
                let v := validateResumable (idPath ids) now w1 in
                if negb (Js.includes (idPath ids) ".part") then
                  if background then
                    (Json 200 (BReady (clipId ids) (idFilename ids) (sizeMB v)), w1)
                  else (Download (idPath ids) (idFilename ids), w1)
                else if negb (resumable v) then finish (unlinkSync (idPath ids) w1)
                else finish w1
            | None => finish w1
            end
        end
  | _, _ => (Json 400 (BError "Missing url/start/end"), w)
  end.

(** ** services/recordService.js *)

Definition set_rec (ref : nat) (r : rec) (w : world) : world :=
  set_heap (<[ref := r]> (heap w)) w.

Definition with_status (s : status) (r : rec) : rec :=
  Rec (rid r) (rurl r) (rtitle r) (startedAt r) (outPath r) (rproc r) s
      (sizeBytes r) (lastUpdate r) (maxDuration r) (stderrTail r)
      (updateInterval r) (exitCode r) (exitSignal r) (endedAt r) (cleanupTimer r).

Definition with_interval (b : bool) (r : rec) : rec :=
  Rec (rid r) (rurl r) (rtitle r) (startedAt r) (outPath r) (rproc r) (rstatus r)
      (sizeBytes r) (lastUpdate r) (maxDuration r) (stderrTail r)
      b (exitCode r) (exitSignal r) (endedAt r) (cleanupTimer r).

Definition with_outPath (p : string) (r : rec) : rec :=
  Rec (rid r) (rurl r) (rtitle r) (startedAt r) p (rproc r) (rstatus r)
      (sizeBytes r) (lastUpdate r) (maxDuration r) (stderrTail r)
      (updateInterval r) (exitCode r) (exitSignal r) (endedAt r) (cleanupTimer r).

Definition with_cleanupTimer (t : option nat) (r : rec) : rec :=
  Rec (rid r) (rurl r) (rtitle r) (startedAt r) (outPath r) (rproc r) (rstatus r)
      (sizeBytes r) (lastUpdate r) (maxDuration r) (stderrTail r)
      (updateInterval r) (exitCode r) (exitSignal r) (endedAt r) t.

Definition with_sample (sz now : Z) (r : rec) : rec :=
  Rec (rid r) (rurl r) (rtitle r) (startedAt r) (outPath r) (rproc r) (rstatus r)
      sz now (maxDuration r) (stderrTail r)
      (updateInterval r) (exitCode r) (exitSignal r) (endedAt r) (cleanupTimer r).

Definition with_exit (code : option Z) (signal : option string) (now : Z) (r : rec) : rec :=
  Rec (rid r) (rurl r) (rtitle r) (startedAt r) (outPath r) (rproc r) (rstatus r)
      (sizeBytes r) (lastUpdate r) (maxDuration r) (stderrTail r)
      (updateInterval r) (Some code) (Some signal) (Some now) (cleanupTimer r).

(** [scheduleRecordingCleanup(id)]: the object now under [id] gets a new
    one-shot timer, a timer it already holds is cleared first. *)
Definition scheduleRecordingCleanup (id : string) (w : world) : world :=
  match recordings w !! id with
  | None => w
  | Some ref =>
      match heap w !! ref with
      | None => w
      | Some r =>
          let w1 :=
            match cleanupTimer r with
            | Some t => set_timers (delete t (timers w)) w
            | None => w
            end in
          let t := nextTimer w1 in
          set_rec ref (with_cleanupTimer (Some t) r)
            (set_timers (<[t := (ref, id)]> (timers w1)) (set_nextTimer (S t) w1))
      end
  end.

(** The callback of a cleanup timer, when timer [t] fires. *)
Definition on_cleanup (t : nat) (w : world) : world :=
  match timers w !! t with
  | None => w
  | Some (ref, id) =>
      let w1 := set_timers (delete t (timers w)) w in
      let w2 :=
        match heap w1 !! ref with
        | Some r =>
            if nonempty (outPath r) && bool_decide (is_Some (files w1 !! outPath r))
            then unlinkSync (outPath r) w1 else w1
        | None => w1
        end in
      wsBroadcast (RecordingRemoved id) (set_recordings (delete id (recordings w2)) w2)
  end.

(** The arguments startRecording hands to yt-dlp. *)
Definition recordArgs (url quality outPath : string) : list string :=
  let chosenFormat :=
    match QUALITY_FORMAT_MAP quality with
    | Some f => f
    | None => "bestvideo[ext=mp4]+bestaudio[ext=m4a]/best[ext=mp4]/best"
    end in
  [ "-f"; chosenFormat; "--hls-use-mpegts"; "--hls-prefer-ffmpeg";
    "--retries"; "10"; "--fragment-retries"; "10";
    "--no-overwrites"; "--continue"; "--no-part"; "-o"; outPath; url ].

(** [startRecording({ url, quality, maxDuration, title })] at time [now],
    [rnd] being [Math.floor(Math.random() * 10000)]. Returns the id. *)
Definition startRecording (url quality : string) (maxDur : Z) (title : string)
    (now rnd : Z) (w : world) : string * world :=
  let w1 := ensureTempDir w in
  let id := "rec_" ++ Js.numToString now ++ "_" ++ Js.numToString rnd in
  let titleSafe := Js.titleSafe (Js.or_else title "live") in
  let outPath := path_join TEMP_DIR (titleSafe ++ "_" ++ id ++ ".ts") in
  let pid := nextPid w1 in
  let w2 := emit (Spawn pid "yt-dlp" (recordArgs url quality outPath))
              (set_running ({[pid]} ∪ running w1) (set_nextPid (S pid) w1)) in
  let r := Rec id url title now outPath pid recording 0 now maxDur ""
               true None None None None in
  (id, set_recordings (<[id := pid]> (recordings w2)) (set_rec pid r w2)).

(** One firing of the sampling interval of the recording object at [ref]. *)
Definition on_tick (ref : nat) (now : Z) (w : world) : world :=
  match heap w !! ref with
  | Some r =>
      if updateInterval r then
        let sz := match files w !! outPath r with
                  | Some st => size st
                  | None => sizeBytes r
                  end in
        let r1 := with_sample sz now r in
        let elapsed := (now - startedAt r1) / 1000 in
        let w1 := wsBroadcast
                    (RecordingProgress (rid r1) (rstatus r1) elapsed
                                       (Fmt.toFixed 2 (sz # 1048576)))
                    (set_rec ref r1 w) in
        if (0 <? maxDuration r1) && (elapsed >=? maxDuration r1) then
          killChildProcess (rproc r1) "maxDuration"
            (set_rec ref (with_interval false r1) w1)
        else w1
      else w
  | None => w
  end.

(** [proc.on('close', (code, signal) => ...)] of the recording object at
    [ref]. *)
Definition on_rec_close (ref : nat) (code : option Z) (signal : option string)
    (now : Z) (w : world) : world :=
  match heap w !! ref with
  | Some r =>
      let st := if bool_decide (code = Some 0) then finished else stopped in
      let r1 := with_interval false (with_exit code signal now (with_status st r)) in
      let w1 := set_running (running w ∖ {[ref]}) (set_rec ref r1 w) in
      let w2 := scheduleRecordingCleanup (rid r1) w1 in
      wsBroadcast (RecordingStatus (rid r1) st None) w2
  | None => w
  end.

(** [s.replace(/\.ts$/i, '.mp4')] *)
Fixpoint replaceTs (s : string) : string :=
  match s with
  | EmptyString => EmptyString
  | String c s' =>
      if String.eqb s ".ts" || String.eqb s ".tS" || String.eqb s ".Ts"
         || String.eqb s ".TS"
      then ".mp4" else String c (replaceTs s')
  end.

(** stopRecording up to its first await: the two checks, then the kill.
    An error is the message of the exception thrown. *)
Definition stopRecording_begin (id : string) (w : world) : (string + nat) * world :=
  match recordings w !! id with
  | None => (inl "Recording not found", w)
  | Some ref =>
      match heap w !! ref with
      | None => (inl "Recording not found", w)
      | Some r =>
          match rstatus r with
          | recording => (inr ref, killChildProcess (rproc r) "user_stop" w)
          | _ => (inl "Recording not active", w)
          end
      end
  end.

(** stopRecording after the wait (the status left [recording], or ten
    seconds passed): the interval is cleared, the file is remuxed to mp4
    when it exists, the status is set and the cleanup armed. [remuxed] is
    what ffmpeg produced: the file it saved, or [None] when it failed.
    Returns what the call resolves with: id, outPath, status. *)
Definition stopRecording_finish (ref : nat) (id : string) (remuxed : option file)
    (w : world) : option (string * string * status) * world :=
  match heap w !! ref with
  | None => (None, w)
  | Some r =>
      let r1 := with_interval false r in
      let w1 := set_rec ref r1 w in
      let finalPath := replaceTs (outPath r1) in
      let '(r2, w2) :=
        match files w1 !! outPath r1, remuxed with
        | Some _, Some f =>
            let w' := emit (Remux (outPath r1) finalPath)
                        (set_files (<[finalPath := f]> (files w1)) w1) in
            let w'' := unlinkSync (outPath r1) w' in
            let r' := with_outPath finalPath r1 in
            (r', set_rec ref r' w'')
        | Some _, None => (r1, emit (Remux (outPath r1) finalPath) w1)
        | None, _ => (r1, w1)
        end in
      let r3 := with_status finished r2 in
      let w3 := scheduleRecordingCleanup id (set_rec ref r3 w2) in
      let out := match heap w3 !! ref with
                 | Some r4 => outPath r4
                 | None => outPath r3
                 end in
      (Some (id, out, finished),
       wsBroadcast (RecordingStatus id finished (Some out)) w3)
  end.

Definition with_stderrTail (t : string) (r : rec) : rec :=
  Rec (rid r) (rurl r) (rtitle r) (startedAt r) (outPath r) (rproc r) (rstatus r)
      (sizeBytes r) (lastUpdate r) (maxDuration r) t
      (updateInterval r) (exitCode r) (exitSignal r) (endedAt r) (cleanupTimer r).

(** [proc.stderr.on('data')] of the recording object at [ref]: the first
    400 characters of the chunk are appended, the tail is cut to 2000. *)
Definition on_rec_stderr (ref : nat) (chunk : string) (w : world) : world :=
  match heap w !! ref with
  | Some r =>
      let t := stderrTail r ++ String.substring 0 400 chunk in
      let t := if (2000 <? String.length t)%nat then Js.sliceLast 2000 t else t in
      set_rec ref (with_stderrTail t r) w
  | None => w
  end.

(** How the worker of a recording ended while stopRecording waited for it,
    if it did within the ten seconds: exit code, signal, time. *)
Definition exit_report : Type := option Z * option string * Z.

(** [stopRecording(id)] as one call: the checks and the kill, the wait
    during which the close handler of the worker runs (or not, when the
    ten seconds pass first), then the completion. *)
Definition stopRecording (id : string) (exit : option exit_report)
    (remuxed : option file) (w : world)
    : (string + string * string * status) * world :=
  match stopRecording_begin id w with
  | (inl err, w1) => (inl err, w1)
  | (inr ref, w1) =>
      let w2 := match exit with
                | Some (code, signal, now) => on_rec_close ref code signal now w1
                | None => w1
                end in
      match stopRecording_finish ref id remuxed w2 with
      | (Some res, w3) => (inr res, w3)
      | (None, w3) => (inl "Recording not found", w3)
      end
  end.

(** ** The server as a transition system

    Everything that can happen to the state: a request handled up to its
    first suspension, an event of a worker process, a timer firing. A
    close event is delivered only for a process that is still running. Of
    the status route only its effect is kept (getClipStatus makes sure of
    the temp directory); the routes that only read are left out. *)
Inductive op :=
  | ClipPost (req : clip_request) (info : fetched) (now : Z)
  | ClipResume (req : clip_request) (now : Z)
  | ClipStderr (pid : nat) (chunk : string) (p : parsed) (duration : Z)
  | ClipClose (pid : nat) (code : option Z) (signal : option string) (now : Z)
  | ClipError (pid : nat) (err : string)
  | ClipStatus
  | SetCleanupTimeout (minutes : Z)
  | RecStart (url quality : string) (maxDur : Z) (title : string) (now rnd : Z)
  | RecStderr (ref : nat) (chunk : string)
  | RecTick (ref : nat) (now : Z)
  | RecClose (ref : nat) (code : option Z) (signal : option string) (now : Z)
  | RecStopBegin (id : string)
  | RecStopFinish (ref : nat) (id : string) (remuxed : option file)
  | RecCleanup (t : nat).

Definition exec (o : op) (w : world) : world :=
  match o with
  | ClipPost req info now => snd (clipPost req info now w)
  | ClipResume req now => snd (clipResume req now w)
  | ClipStderr pid chunk p duration => on_stderr pid chunk p duration w
  | ClipClose pid code signal now =>
      if bool_decide (pid ∈ running w) then on_close pid code signal now w else w
  | ClipError pid err => on_error pid err w
  | ClipStatus => ensureTempDir w
  | SetCleanupTimeout minutes =>
      if minutes <? 1 then w else set_recordingCleanupTimeoutMs (minutes * 60 * 1000) w
  | RecStart url quality maxDur title now rnd =>
      snd (startRecording url quality maxDur title now rnd w)
  | RecStderr ref chunk => on_rec_stderr ref chunk w
  | RecTick ref now => on_tick ref now w
  | RecClose ref code signal now =>
      if bool_decide (ref ∈ running w) then on_rec_close ref code signal now w else w
  | RecStopBegin id => snd (stopRecording_begin id w)
  | RecStopFinish ref id remuxed => snd (stopRecording_finish ref id remuxed w)
  | RecCleanup t => on_cleanup t w
  end.

Definition run (ops : list op) (w : world) : world := fold_left (fun w o => exec o w) ops w.

(** The worker processes alive for the clip [id]. *)
Definition workersOf (id : string) (w : world) : list nat :=
  List.filter (fun pid => match jobs w !! pid with
                          | Some j => String.eqb (clipId (jids j)) id
                          | None => false
                          end) (elements (running w)).

(** The workers spawned so far, with their arguments. *)
Definition spawns (w : world) : list (nat * list string) :=
  omap (fun e => match e with Spawn pid _ args => Some (pid, args) | _ => None end)
       (trace w).

(** The paths unlinked so far. *)
Definition unlinks (w : world) : list string :=
  omap (fun e => match e with Unlink p => Some p | _ => None end) (trace w).

End Server.

(** ** Notions the properties are stated with *)

(** The promise of the job under [pid] is rejected with an error whose
    message holds the text [tail]. *)
Definition rejected_with (tail : string) (pid : nat) (w : world) : Prop :=
  exists j m,
    jobs w !! pid = Some j /\ jsettled j = Some (Rejected m)
    /\ Js.includes m tail = true.




(** ** Four sentences of the specification, as it words them

    Each is stated here for one run of the server; the code departs from
    each of them (see the properties below). *)

(** A start request that finds a file at an output path free of '.part'
    is answered 'ready' and spawns no worker. *)
Definition start_short_circuits (TEMP_DIR : string) (validateURL : string -> bool)
    (req : clip_request) (info : fetched) (now : Z) (w : world) : Prop :=
  let ids := clipIds TEMP_DIR (r_url req) (timeToSeconds (r_start req))
               (timeToSeconds (r_end req)) (or_default "best" (r_quality req)) in
  is_Some (files w !! idPath ids) ->
  Js.includes (idPath ids) ".part" = false ->
  let out := clipPost TEMP_DIR validateURL req info now w in
  (exists id name mb, fst out = Json 200 (BReady id name mb))
  /\ spawns (snd out) = spawns w.

(** A worker that exits with a code other than 0 rejects with an error
    that carries the stderr tail. *)
Definition failure_carries_stderr (pid : nat) (code : option Z)
    (signal : option string) (now : Z) (w : world) : Prop :=
  forall j, jobs w !! pid = Some j -> jsettled j = None -> code <> Some 0 ->
    rejected_with (jstderrBuf j) pid (on_close pid code signal now w).


(** A first stop on an active recording leaves its status [stopped]. *)
Definition first_stop_gives_stopped (id : string) (exit : option exit_report)
    (remuxed : option file) (w : world) : Prop :=
  forall ref r,
    recordings w !! id = Some ref -> heap w !! ref = Some r ->
    rstatus r = recording ->
    exists r', heap (snd (stopRecording id exit remuxed w)) !! ref = Some r'
               /\ rstatus r' = stopped.

(** ** Sample inputs *)

(** A stand-in for [ytdl.validateURL]: watch URLs of youtube.com. *)
Definition watchUrl (u : string) : bool :=
  String.prefix "https://www.youtube.com/watch?v=" u.

Definition sampleUrl : string := "https://www.youtube.com/watch?v=dQw4w9WgXcQ".

(** A request for seconds 10 to 40 of the sample video, in the default
    quality. *)
Definition sampleRequest (background : bool) : clip_request :=
  ClipRequest sampleUrl (Some 10) (Some 40) None (Some background).

(** The sample video: 212 seconds long, not live. *)
Definition sampleInfo : fetched := Fetched (VideoDetails "Sample" (Some 212) false).

(** Where the samples keep their clips. *)
Definition sampleDir : string := "/srv/app/temp".

(** A server whose temp directory [dir] holds one file [st] at the output
    path of the sample clip. *)
Definition worldWithClip (dir : string) (st : file) : world :=
  set_files {[ idPath (clipIds dir sampleUrl 10 40 "best") := st ]}
            (initial ∅ {[ dir ]}).

(** The sample clip started in the background on a fresh server, its
    worker having written one line to stderr. *)
Definition sampleFailing : world :=
  on_stderr 1 "ERROR: unable to download video data" (Parsed None None) 30
    (snd (clipPost sampleDir watchUrl (sampleRequest true) sampleInfo 1000 (initial ∅ ∅))).

(** The closure of that worker. *)
Definition sampleJob : job :=
  Job (clipIds sampleDir sampleUrl 10 40 "best") None
      "ERROR: unable to download video data" true None.

(** A live stream recorded on a fresh server, then stopped by the caller:
    the request is accepted and the worker signalled, and the worker is
    seen to end on SIGINT while stopRecording waits. *)
Definition liveUrl : string := "https://www.youtube.com/watch?v=jfKfPfyJRdk".
Definition sampleRecId : string := "rec_1700000000000_4242".

Definition sampleRecStart : op :=
  RecStart liveUrl "best" 0 "Live Show" 1700000000000 4242.


Definition sampleRecording : world :=
  run sampleDir watchUrl [sampleRecStart] (initial ∅ ∅).

(** * Properties *)

(** ** The building blocks compute what Node computes *)

Example sha256_abc :
  Sha256.hexdigest "abc"
  = "ba7816bf8f01cfea414140de5dae2223b00361a396177a9cb410ff61f20015ad".
Proof. vm_compute. reflexivity. Qed.

Example sha256_tables :
  nth 0 Sha256.K 0 = 0x428a2f98 /\ nth 63 Sha256.K 0 = 0xc67178f2
  /\ nth 0 Sha256.H0 0 = 0x6a09e667 /\ nth 7 Sha256.H0 0 = 0x5be0cd19.
Proof. vm_compute. repeat split. Qed.

Example sha256_two_blocks :
  Sha256.hexdigest
    "aaaaaaaaaaaaaaaaaaaaaaaaaaaaaaaaaaaaaaaaaaaaaaaaaaaaaaaaaaaaaaaaaaaaaa"
  = "6bd5e5034855a11241f0dee8fc72850ffd9955b28347a86428b5fa19119f6ad0".
Proof. vm_compute. reflexivity. Qed.

Example toFixed_examples :
  Fmt.toFixed 2 (900 # 1048576) = "0.00" /\
  Fmt.toFixed 2 (52428800 # 1048576) = "50.00" /\
  Fmt.toFixed 1 (120000 # 60000) = "2.0" /\
  Fmt.toFixed 2 (1572864 # 1048576) = "1.50" /\
  Fmt.toFixed 0 (5 # 2) = "3".
Proof. vm_compute. repeat split. Qed.

Example toISOString_examples :
  Fmt.toISOString 0 = "1970-01-01T00:00:00.000Z" /\
  Fmt.toISOString 1700000000000 = "2023-11-14T22:13:20.000Z" /\
  Fmt.toISOString 1709210096789 = "2024-02-29T12:34:56.789Z".
Proof. vm_compute. repeat split. Qed.

Example clipId_srcXYZ :
  fst (getClipIdAndPath "/srv/app/temp" "srcXYZ" 10 40 "best" (initial ∅ ∅))
  = ClipIds "7aef66d1185e" "/srv/app/temp/srcxyz_clip_7aef66d1185e.mp4"
            "srcxyz_clip_7aef66d1185e.mp4" "mp4".
Proof. vm_compute. reflexivity. Qed.

(** ** Strings *)

Lemma append_assoc (a b c : string) : (a ++ b) ++ c = a ++ (b ++ c).
Proof. induction a as [| x a IH]; cbn; [reflexivity | now rewrite IH]. Qed.

Lemma all_app (f : ascii -> bool) (a b : string) :
  Js.all f (a ++ b) = Js.all f a && Js.all f b.
Proof.
  induction a as [| x a IH]; cbn; [reflexivity |].
  now rewrite IH, andb_assoc.
Qed.

Lemma all_map_string (f : ascii -> bool) (g : ascii -> ascii) (s : string) :
  (forall c, f (g c) = true) -> Js.all f (Js.map_string g s) = true.
Proof.
  intros Hg. induction s as [| x s IH]; cbn; [reflexivity |].
  now rewrite Hg, IH.
Qed.

Lemma all_substring (f : ascii -> bool) (s : string) (n m : nat) :
  Js.all f s = true -> Js.all f (String.substring n m s) = true.
Proof.
  revert n m. induction s as [| x s IH]; intros n m Hs.
  - destruct n, m; reflexivity.
  - cbn in Hs. apply andb_true_iff in Hs as [Hx Hs].
    destruct n as [| n]; cbn.
    + destruct m as [| m]; cbn; [reflexivity |].
      rewrite Hx. apply (IH 0%nat m Hs).
    + apply (IH n m Hs).
Qed.

Lemma safe_char_word (c : ascii) : Js.is_word_char (Js.safe_char c) = true.
Proof. destruct c as [[] [] [] [] [] [] [] []]; vm_compute; reflexivity. Qed.

Lemma titleSafe_word (s : string) : Js.all Js.is_word_char (Js.titleSafe s) = true.
Proof. apply all_map_string, safe_char_word. Qed.

Lemma hex_digit_word (n : Z) :
  0 <= n < 16 -> Js.is_word_char (Sha256.hex_digit n) = true.
Proof.
  intros Hn.
  destruct n as [| p | p]; [reflexivity | | lia].
  repeat (destruct p as [p | p |]; try reflexivity; try lia).
Qed.

Lemma hex_of_word (n : nat) (x : Z) : Js.all Js.is_word_char (Sha256.hex_of n x) = true.
Proof.
  induction n as [| n IH]; cbn [Sha256.hex_of Js.all]; [reflexivity |].
  rewrite IH, andb_true_r. apply hex_digit_word, Z.mod_pos_bound. lia.
Qed.

Lemma hexdigest_word (msg : string) :
  Js.all Js.is_word_char (Sha256.hexdigest msg) = true.
Proof.
  unfold Sha256.hexdigest. induction (Sha256.digest msg) as [| x ws IH].
  - reflexivity.
  - cbn [Sha256.hex_words]. now rewrite all_app, hex_of_word, IH.
Qed.

(** A pattern that starts with a character foreign to [x] cannot start
    inside [x]. *)
Lemma includes_skip (f : ascii -> bool) (x y : string) (c : ascii) (p : string) :
  Js.all f x = true -> f c = false ->
  Js.includes (x ++ y) (String c p) = Js.includes y (String c p).
Proof.
  intros Hx Hc. induction x as [| a x IH]; [reflexivity |].
  cbn in Hx. apply andb_true_iff in Hx as [Ha Hx].
  cbn [append Js.includes String.prefix].
  destruct (ascii_dec c a) as [-> | _]; [congruence |].
  cbn. apply (IH Hx).
Qed.

(** A pattern without the separator [c] that matches at the start of
    [x ++ c ++ y] matches inside [x] already. *)
Lemma prefix_sep (p x y : string) (c : ascii) :
  Js.occurs c p = false ->
  String.prefix p (x ++ String c y) = true -> String.prefix p x = true.
Proof.
  revert x. induction p as [| a p IH]; intros x Hc Hp; [now destruct x |].
  cbn in Hc. apply orb_false_iff in Hc as [Hca Hc].
  apply Ascii.eqb_neq in Hca.
  destruct x as [| b x]; cbn in Hp |- *.
  - destruct (ascii_dec a c); [congruence | discriminate].
  - destruct (ascii_dec a b); [now apply IH | discriminate].
Qed.

Lemma includes_sep (p x y : string) (c : ascii) :
  Js.occurs c p = false -> p <> EmptyString ->
  Js.includes x p = false -> Js.includes y p = false ->
  Js.includes (x ++ String c y) p = false.
Proof.
  intros Hc Hne Hx Hy. induction x as [| a x IH].
  - cbn [append Js.includes]. rewrite Hy, orb_false_r.
    destruct (String.prefix p (String c y)) eqn:Hp; [| reflexivity].
    apply (prefix_sep p EmptyString y c Hc) in Hp. now destruct p.
  - cbn [append Js.includes] in Hx |- *.
    apply orb_false_iff in Hx as [Hpx Hx].
    rewrite (IH Hx), orb_false_r.
    destruct (String.prefix p (String a (x ++ String c y))) eqn:Hp; [| reflexivity].
    apply (prefix_sep p (String a x) y c Hc) in Hp. congruence.
Qed.

Lemma prefix_app_l (p a b : string) :
  String.prefix p a = true -> String.prefix p (a ++ b) = true.
Proof.
  revert a. induction p as [| x p IH]; intros a Hp; [now destruct (a ++ b) |].
  destruct a as [| y a]; cbn in Hp |- *; [discriminate |].
  destruct (ascii_dec x y); [now apply IH | discriminate].
Qed.

Lemma includes_app_l (p a b : string) :
  Js.includes a p = true -> Js.includes (a ++ b) p = true.
Proof.
  induction a as [| x a IH]; intros Hp.
  - cbn in Hp. rewrite orb_false_r in Hp.
    destruct p; [now destruct b | discriminate].
  - cbn [append Js.includes] in Hp |- *.
    apply orb_true_iff in Hp as [Hp | Hp].
    + change (String x (a ++ b)) with (String x a ++ b).
      now rewrite (prefix_app_l _ _ _ Hp).
    + rewrite (IH Hp). apply orb_true_r.
Qed.

Lemma endsWith_split (s suf : string) :
  Js.endsWith s suf = true -> exists pre, s = pre ++ suf.
Proof.
  induction s as [| x s IH]; cbn [Js.endsWith]; intros H.
  - rewrite orb_false_r in H. apply String.eqb_eq in H. now exists EmptyString.
  - apply orb_true_iff in H as [H | H].
    + apply String.eqb_eq in H. now exists EmptyString.
    + destruct (IH H) as [pre ->]. now exists (String x pre).
Qed.

(** ** Fingerprint and path *)

(** C2. The id and the output path are a function of the four inputs
    alone: whatever state the server is in, and also when the second
    computation follows the first, getClipIdAndPath gives the same id,
    path, file name and extension; the extension is m4a for the quality
    'audio' and mp4 for every other one, and the path is the file name
    under the temp directory. *)
Theorem getClipIdAndPath_deterministic
    (TEMP_DIR url : string) (startSeconds endSeconds : Z) (quality : string)
    (w w' : world) :
  startSeconds < endSeconds ->
  let first := getClipIdAndPath TEMP_DIR url startSeconds endSeconds quality w in
  fst (getClipIdAndPath TEMP_DIR url startSeconds endSeconds quality w') = fst first
  /\ fst (getClipIdAndPath TEMP_DIR url startSeconds endSeconds quality (snd first))
     = fst first
  /\ ext (fst first) = (if String.eqb quality "audio" then "m4a" else "mp4")
  /\ idPath (fst first) = path_join TEMP_DIR (idFilename (fst first))
  /\ exists stem, idFilename (fst first) = stem ++ "." ++ ext (fst first).
Proof.
  intros _. cbn. repeat split.
  exists (Js.titleSafe (Js.or_else url "clip") ++ "_clip_"
            ++ clipHash url startSeconds endSeconds quality).
  unfold clipFilename. now rewrite !append_assoc.
Qed.

(** C2 at the example of the specification: ("srcXYZ", 10, 40, "best"). *)
Lemma getClipIdAndPath_deterministic_witness :
  10 < 40 /\
  fst (getClipIdAndPath "/srv/app/temp" "srcXYZ" 10 40 "best"
         (snd (getClipIdAndPath "/srv/app/temp" "srcXYZ" 10 40 "best" (initial ∅ ∅))))
  = fst (getClipIdAndPath "/srv/app/temp" "srcXYZ" 10 40 "best" (initial ∅ ∅)).
Proof.
  split; [lia |].
  apply (getClipIdAndPath_deterministic "/srv/app/temp" "srcXYZ" 10 40 "best"
           (initial ∅ ∅) (initial ∅ ∅)).
  lia.
Defined.

(** ** Resume validator *)

Lemma Qltb_minutes (a : Z) : Qltb 1440 (a # 60000) = (86400000 <? a).
Proof.
  unfold Qltb, Qle_bool. cbn.
  destruct (Z.leb_spec (a * 1) 86400000), (Z.ltb_spec 86400000 a); cbn; try reflexivity; lia.
Qed.

Lemma Qltb_megabyte (n : Z) : Qltb (n # 1048576) 1 = (n <? 1048576).
Proof.
  unfold Qltb, Qle_bool. cbn.
  destruct (Z.leb_spec 1048576 (n * 1)), (Z.ltb_spec n 1048576); cbn; try reflexivity; lia.
Qed.

(** C5. For an existing file validateResumable answers, in this order:
    not resumable, 'File too small (corrupted)', below 1024 bytes; not
    resumable, 'Stale and undersized', when older than 24 hours and below
    1 MB; resumable otherwise. *)
Theorem validateResumable_classifies
    (filePath : string) (now : Z) (w : world) (st : file) :
  files w !! filePath = Some st ->
  let v := validateResumable filePath now w in
  let age := now - mtimeMs st in
  (size st < 1024 ->
     resumable v = false /\ reason v = "File too small (corrupted)")
  /\ (1024 <= size st -> 24 * 60 * 60 * 1000 < age -> size st < 1024 * 1024 ->
     resumable v = false /\ reason v = "Stale and undersized")
  /\ (24 * 60 * 60 * 1000 < age -> size st < 1024 * 1024 -> resumable v = false)
  /\ (1024 <= size st -> ~ (24 * 60 * 60 * 1000 < age /\ size st < 1024 * 1024) ->
     resumable v = true /\ reason v = "Valid partial download").
Proof.
  intros Hf. unfold validateResumable. rewrite Hf.
  rewrite Qltb_minutes, Qltb_megabyte. cbn zeta.
  destruct (Z.ltb_spec (size st) 1024) as [Hs | Hs];
    destruct (Z.ltb_spec 86400000 (now - mtimeMs st)) as [Ha | Ha];
    destruct (Z.ltb_spec (size st) 1048576) as [Hm | Hm];
    cbn; repeat split; intros; try reflexivity; lia.
Qed.

(** C5 at the examples of the specification: 900 bytes written two minutes
    ago are too small, 50 MB written two minutes ago can be resumed. *)
Lemma validateResumable_classifies_witness :
  let small := set_files {[ "/t/a.mp4" := File 900 0 ]} (initial ∅ ∅) in
  let large := set_files {[ "/t/a.mp4" := File (50 * 1024 * 1024) 0 ]} (initial ∅ ∅) in
  (resumable (validateResumable "/t/a.mp4" 120000 small) = false
   /\ reason (validateResumable "/t/a.mp4" 120000 small) = "File too small (corrupted)")
  /\ resumable (validateResumable "/t/a.mp4" 120000 large) = true.
Proof.
  intros small large. split.
  - apply (validateResumable_classifies "/t/a.mp4" 120000 small (File 900 0));
      [reflexivity | cbn; lia].
  - apply (validateResumable_classifies "/t/a.mp4" 120000 large
             (File (50 * 1024 * 1024) 0)); [reflexivity | cbn; lia | cbn; lia].
Defined.

(** ** Range validation of POST /api/clip *)

(** C8. A start request whose bounds are out of order or negative is
    answered 400 on the spot: the state is left exactly as it was, so no
    worker was spawned and no registry entry was made. *)
Theorem clipPost_rejects_bad_range
    (TEMP_DIR : string) (validateURL : string -> bool)
    (req : clip_request) (info : fetched) (now : Z) (w : world) :
  let startSeconds := timeToSeconds (r_start req) in
  let endSeconds := timeToSeconds (r_end req) in
  startSeconds >= endSeconds \/ startSeconds < 0 \/ endSeconds < 0 ->
  exists msg,
    clipPost TEMP_DIR validateURL req info now w = (Json 400 (BError msg), w).
Proof.
  intros startSeconds endSeconds Hbad. unfold clipPost.
  destruct (negb (nonempty (r_url req)) || negb (validateURL (r_url req))); [eauto |].
  fold startSeconds endSeconds.
  destruct (Z.geb_spec startSeconds endSeconds) as [Hge | Hlt]; [eauto |].
  destruct (Z.ltb_spec startSeconds 0), (Z.ltb_spec endSeconds 0); cbn; eauto.
  lia.
Qed.

(** C8 on the sample video: 40 to 10, and -5 to 10. *)
Lemma clipPost_rejects_bad_range_witness :
  (exists msg,
     clipPost "/srv/app/temp" watchUrl
       (ClipRequest sampleUrl (Some 40) (Some 10) None (Some true))
       sampleInfo 1000 (initial ∅ ∅) = (Json 400 (BError msg), initial ∅ ∅))
  /\ (exists msg,
     clipPost "/srv/app/temp" watchUrl
       (ClipRequest sampleUrl (Some (-5)) (Some 10) None (Some true))
       sampleInfo 1000 (initial ∅ ∅) = (Json 400 (BError msg), initial ∅ ∅)).
Proof.
  split.
  - apply (clipPost_rejects_bad_range "/srv/app/temp" watchUrl
             (ClipRequest sampleUrl (Some 40) (Some 10) None (Some true))).
    cbn. lia.
  - apply (clipPost_rejects_bad_range "/srv/app/temp" watchUrl
             (ClipRequest sampleUrl (Some (-5)) (Some 10) None (Some true))).
    cbn. lia.
Defined.

(** ** Frame lemmas for the clip service *)

Lemma ensureTempDir_idem (D : string) (w : world) :
  ensureTempDir D (ensureTempDir D w) = ensureTempDir D w.
Proof.
  unfold ensureTempDir at 2 3. destruct (bool_decide (D ∈ dirs w)) eqn:Hd.
  - unfold ensureTempDir. now rewrite Hd.
  - unfold ensureTempDir. cbn. rewrite bool_decide_eq_true_2; [reflexivity | set_solver].
Qed.

Lemma ensureTempDir_frame (D : string) (w : world) :
  files (ensureTempDir D w) = files w
  /\ activeClips (ensureTempDir D w) = activeClips w
  /\ nextPid (ensureTempDir D w) = nextPid w
  /\ jobs (ensureTempDir D w) = jobs w.
Proof. unfold ensureTempDir. destruct (bool_decide _); repeat split. Qed.

(** Nothing at the output path: the worker starts afresh. *)
Lemma resumeDetection_absent (ids : clip_ids) (now : Z) (w : world) :
  files w !! idPath ids = None -> resumeDetection ids now w = (None, w).
Proof. intros H. unfold resumeDetection. now rewrite H. Qed.

(** A file of 1024 bytes or more at the output path is noted and kept. *)
Lemma resumeDetection_kept (ids : clip_ids) (now : Z) (w : world) (st : file) :
  files w !! idPath ids = Some st -> 1024 <= size st ->
  resumeDetection ids now w
  = (Some (ResumeInfo (size st) (Fmt.toFixed 2 (size st # 1048576))
                      (Js.endsWith (idPath ids) ".part")
                      (Fmt.toFixed 1 ((now - mtimeMs st) # 60000))), w).
Proof.
  intros H Hs. unfold resumeDetection. rewrite H.
  destruct (Z.ltb_spec (size st) 1024); [lia |].
  now rewrite andb_false_r.
Qed.

Lemma downloadClip_unfold (D url : string) (s e : Z) (q : string) (bg : bool)
    (now : Z) (w : world) :
  let ids := clipIds D url s e q in
  downloadClip D url s e q bg now w
  = (nextPid (snd (resumeDetection ids now (ensureTempDir D w))),
     spawnAndRegister ids (ytdlpArgs url s e q (idPath ids)) bg
       (fst (resumeDetection ids now (ensureTempDir D w)))
       (snd (resumeDetection ids now (ensureTempDir D w)))).
Proof.
  cbn. unfold downloadClip, getClipIdAndPath. rewrite ensureTempDir_idem.
  now destruct (resumeDetection _ now (ensureTempDir D w)).
Qed.

Lemma activeProc_ensureTempDir D id w : activeProc id (ensureTempDir D w) = activeProc id w.
Proof. unfold activeProc. now rewrite (proj1 (proj2 (ensureTempDir_frame D w))). Qed.

Lemma validateResumable_ensureTempDir D p now w :
  validateResumable p now (ensureTempDir D w) = validateResumable p now w.
Proof. unfold validateResumable. now rewrite (proj1 (ensureTempDir_frame D w)). Qed.

Lemma validateResumable_sizeMB p now w st :
  files w !! p = Some st -> sizeMB (validateResumable p now w) = (size st # 1048576)%Q.
Proof.
  intros H. unfold validateResumable. rewrite H.
  destruct (size st <? 1024); [reflexivity |].
  now destruct (Qltb _ _ && Qltb _ _).
Qed.

(** A file at an output path without '.part' is taken for the finished
    clip: the resume handler answers at once and leaves the state alone. *)
Lemma clipResume_complete (D : string) (req : clip_request) (now : Z) (w : world)
    (start end_ : Z) (st : file) :
  nonempty (r_url req) = true -> r_start req = Some start -> r_end req = Some end_ ->
  let ids := clipIds D (r_url req) start end_ (or_default "best" (r_quality req)) in
  activeProc (clipId ids) w = None ->
  files w !! idPath ids = Some st ->
  Js.includes (idPath ids) ".part" = false ->
  clipResume D req now w
  = (if or_default true (r_background req)
     then Json 200 (BReady (clipId ids) (idFilename ids) (size st # 1048576))
     else Download (idPath ids) (idFilename ids),
     ensureTempDir D w).
Proof.
  intros Hurl Hs He ids Hact Hf Hpart.
  unfold clipResume. rewrite Hs, He, Hurl. cbn [negb timeToSeconds].
  unfold getClipIdAndPath. fold ids.
  rewrite activeProc_ensureTempDir, Hact.
  rewrite (proj1 (ensureTempDir_frame D w)), Hf, Hpart. cbn [negb].
  rewrite validateResumable_ensureTempDir, (validateResumable_sizeMB _ _ _ _ Hf).
  now destruct (or_default true (r_background req)).
Qed.

Lemma spawnAndRegister_frame ids args bg ri w :
  let w' := spawnAndRegister ids args bg ri w in
  files w' = files w
  /\ trace w' = (trace w ++ [Spawn (nextPid w) "yt-dlp" args])%list
  /\ nextPid w' = S (nextPid w)
  /\ running w' = {[nextPid w]} ∪ running w
  /\ jobs w' = <[nextPid w := Job ids ri "" true None]> (jobs w)
  /\ activeClips w' = <[clipId ids := Clip (Some (nextPid w)) (idPath ids) 0 "Starting" bg (idFilename ids) None None]> (activeClips w)
  /\ dirs w' = dirs w /\ heap w' = heap w.
Proof. repeat split. Qed.

Lemma ensureTempDir_here D w : D ∈ dirs w -> ensureTempDir D w = w.
Proof. intros H. unfold ensureTempDir. now rewrite bool_decide_eq_true_2. Qed.

Lemma ensureTempDir_dirs D w : D ∈ dirs (ensureTempDir D w).
Proof.
  unfold ensureTempDir. destruct (bool_decide (D ∈ dirs w)) eqn:H.
  - now apply bool_decide_eq_true in H.
  - cbn. set_solver.
Qed.

Lemma downloadClip_kept D url s e q bg now w st :
  let ids := clipIds D url s e q in
  D ∈ dirs w -> files w !! idPath ids = Some st -> 1024 <= size st ->
  downloadClip D url s e q bg now w
  = (nextPid w,
     spawnAndRegister ids (ytdlpArgs url s e q (idPath ids)) bg
       (Some (ResumeInfo (size st) (Fmt.toFixed 2 (size st # 1048576))
                         (Js.endsWith (idPath ids) ".part")
                         (Fmt.toFixed 1 ((now - mtimeMs st) # 60000)))) w).
Proof.
  intros ids Hd Hf Hs. rewrite downloadClip_unfold. fold ids.
  rewrite (ensureTempDir_here _ _ Hd), (resumeDetection_kept ids now w st Hf Hs).
  reflexivity.
Qed.

Lemma downloadClip_absent D url s e q bg now w :
  let ids := clipIds D url s e q in
  D ∈ dirs w -> files w !! idPath ids = None ->
  downloadClip D url s e q bg now w
  = (nextPid w, spawnAndRegister ids (ytdlpArgs url s e q (idPath ids)) bg None w).
Proof.
  intros ids Hd Hf. rewrite downloadClip_unfold. fold ids.
  rewrite (ensureTempDir_here _ _ Hd), (resumeDetection_absent ids now w Hf).
  reflexivity.
Qed.

Lemma resumable_size p now w st :
  files w !! p = Some st -> resumable (validateResumable p now w) = true ->
  1024 <= size st.
Proof.
  intros Hf. unfold validateResumable. rewrite Hf.
  destruct (Z.ltb_spec (size st) 1024); [discriminate | lia].
Qed.

(** ** The shape of the output path *)

Lemma clipExt_cases (q : string) : clipExt q = "mp4" \/ clipExt q = "m4a".
Proof. unfold clipExt. destruct (String.eqb q "audio"); auto. Qed.

Lemma clipFilename_shape (url : string) (s e : Z) (q : string) :
  exists stem,
    clipFilename url s e q = stem ++ "." ++ clipExt q
    /\ Js.all Js.is_word_char stem = true.
Proof.
  exists (Js.titleSafe (Js.or_else url "clip") ++ "_clip_" ++ clipHash url s e q).
  split.
  - unfold clipFilename. now rewrite !append_assoc.
  - rewrite !all_app, titleSafe_word. unfold clipHash.
    rewrite all_substring by apply hexdigest_word. reflexivity.
Qed.

Lemma clipFilename_no_part (url : string) (s e : Z) (q : string) :
  Js.includes (clipFilename url s e q) ".part" = false.
Proof.
  destruct (clipFilename_shape url s e q) as (stem & -> & Hw).
  rewrite (includes_skip Js.is_word_char stem _ "."%char "part" Hw eq_refl).
  destruct (clipExt_cases q) as [-> | ->]; reflexivity.
Qed.

Lemma path_join_no_part (dir name : string) :
  Js.includes dir ".part" = false -> Js.includes name ".part" = false ->
  Js.includes (path_join dir name) ".part" = false.
Proof.
  intros Hd Hn. unfold path_join. destruct (Js.endsWith dir "/") eqn:Hs.
  - destruct (endsWith_split _ _ Hs) as [pre ->].
    rewrite append_assoc. cbn [append].
    apply includes_sep; [reflexivity | discriminate | | exact Hn].
    destruct (Js.includes pre ".part") eqn:Hp; [| reflexivity].
    now rewrite (includes_app_l _ _ "/" Hp) in Hd.
  - apply includes_sep; [reflexivity | discriminate | exact Hd | exact Hn].
Qed.

Lemma ensureTempDir_effects (D : string) (w : world) :
  unlinks (ensureTempDir D w) = unlinks w /\ spawns (ensureTempDir D w) = spawns w.
Proof.
  unfold ensureTempDir, unlinks, spawns. destruct (bool_decide _); [now split |].
  cbn. rewrite !omap_app. cbn. now rewrite !app_nil_r.
Qed.

(** C10. The file name getClipIdAndPath produces is a stem over [a-z0-9_],
    one dot and the extension mp4 or m4a, so '.part' is not in it; hence,
    when the temp directory does not carry '.part' in its own name, the
    resume handler takes every file it finds at the output path for the
    finished clip: it answers ready (or sends the file), unlinks nothing
    and spawns nothing, and its branch for partial files is never taken. *)
Theorem output_path_never_partial (TEMP_DIR : string) :
  (forall url s e q,
      let ids := clipIds TEMP_DIR url s e q in
      exists stem,
        idFilename ids = stem ++ "." ++ ext ids
        /\ Js.all Js.is_word_char stem = true
        /\ (ext ids = "mp4" \/ ext ids = "m4a")
        /\ Js.includes (idFilename ids) ".part" = false)
  /\ (Js.includes TEMP_DIR ".part" = false ->
      forall (req : clip_request) (now : Z) (w : world) (start end_ : Z) (st : file),
        nonempty (r_url req) = true ->
        r_start req = Some start -> r_end req = Some end_ ->
        let ids := clipIds TEMP_DIR (r_url req) start end_
                     (or_default "best" (r_quality req)) in
        activeProc (clipId ids) w = None ->
        files w !! idPath ids = Some st ->
        let out := clipResume TEMP_DIR req now w in
        Js.includes (idPath ids) ".part" = false
        /\ fst out = (if or_default true (r_background req)
                      then Json 200 (BReady (clipId ids) (idFilename ids)
                                            (size st # 1048576))
                      else Download (idPath ids) (idFilename ids))
        /\ unlinks (snd out) = unlinks w
        /\ spawns (snd out) = spawns w).
Proof.
  split.
  - intros url s e q ids.
    destruct (clipFilename_shape url s e q) as (stem & Heq & Hw).
    exists stem. repeat split; [exact Heq | exact Hw | apply clipExt_cases |].
    apply clipFilename_no_part.
  - intros HD req now w start end_ st Hurl Hs He ids Hact Hf out.
    assert (Js.includes (idPath ids) ".part" = false) as Hp
      by (apply path_join_no_part; [exact HD | apply clipFilename_no_part]).
    split; [exact Hp |]. subst out.
    rewrite (clipResume_complete TEMP_DIR req now w start end_ st Hurl Hs He Hact Hf Hp).
    cbn [fst snd]. split; [reflexivity |]. apply ensureTempDir_effects.
Qed.

(** C10 on the sample clip, a 5 MB file at its output path. *)
Lemma output_path_never_partial_witness :
  let ids := clipIds sampleDir sampleUrl 10 40 "best" in
  let w := worldWithClip sampleDir (File 5242880 0) in
  let out := clipResume sampleDir (sampleRequest true) 120000 w in
  Js.includes sampleDir ".part" = false
  /\ Js.includes (idPath ids) ".part" = false
  /\ fst out = Json 200 (BReady (clipId ids) (idFilename ids) (5242880 # 1048576))
  /\ unlinks (snd out) = unlinks w
  /\ spawns (snd out) = spawns w.
Proof.
  intros ids w out. split; [reflexivity |].
  apply (proj2 (output_path_never_partial sampleDir) eq_refl (sampleRequest true)
           120000 w 10 40 (File 5242880 0) eq_refl eq_refl eq_refl);
    vm_compute; reflexivity.
Defined.

(** ** Resume of a file the validator rejects *)

(** C6. The handler does not do what the claim says. In a temp directory
    whose name is free of '.part', a resume request with no worker active
    for the clip that finds at the output path a file validateResumable
    rejects neither deletes it nor starts a fresh job: it answers 'ready'
    with that file (or sends it, in foreground mode), leaves every file,
    the registry and the process table as they were, unlinks nothing and
    spawns nothing. The branch that unlinks a rejected file stands behind
    the test on the path and is not reached. *)
Theorem clipResume_keeps_rejected_file
    (TEMP_DIR : string) (req : clip_request) (now : Z) (w : world)
    (start end_ : Z) (st : file) :
  Js.includes TEMP_DIR ".part" = false ->
  nonempty (r_url req) = true -> r_start req = Some start -> r_end req = Some end_ ->
  let ids := clipIds TEMP_DIR (r_url req) start end_ (or_default "best" (r_quality req)) in
  activeProc (clipId ids) w = None ->
  files w !! idPath ids = Some st ->
  resumable (validateResumable (idPath ids) now w) = false ->
  let out := clipResume TEMP_DIR req now w in
  fst out = (if or_default true (r_background req)
             then Json 200 (BReady (clipId ids) (idFilename ids) (size st # 1048576))
             else Download (idPath ids) (idFilename ids))
  /\ files (snd out) !! idPath ids = Some st
  /\ files (snd out) = files w
  /\ activeClips (snd out) = activeClips w
  /\ nextPid (snd out) = nextPid w
  /\ unlinks (snd out) = unlinks w
  /\ spawns (snd out) = spawns w.
Proof.
  intros HD Hurl Hs He ids Hact Hf _ out.
  assert (Js.includes (idPath ids) ".part" = false) as Hp
    by (apply path_join_no_part; [exact HD | apply clipFilename_no_part]).
  subst out.
  rewrite (clipResume_complete TEMP_DIR req now w start end_ st Hurl Hs He Hact Hf Hp).
  cbn [fst snd].
  destruct (ensureTempDir_frame TEMP_DIR w) as (Hfiles & Hclips & Hpid & _).
  destruct (ensureTempDir_effects TEMP_DIR w) as (Hun & Hsp).
  rewrite Hfiles. repeat split; assumption.
Qed.

(** C6 at the failing input: the sample clip is resumed while a file of
    900 bytes, written two minutes before, lies at its output path. The
    validator calls it too small, and the handler answers 'ready' with it;
    the file is still there, nothing was unlinked or spawned. *)
Lemma clipResume_keeps_rejected_file_witness :
  let ids := clipIds sampleDir sampleUrl 10 40 "best" in
  let w := worldWithClip sampleDir (File 900 0) in
  let out := clipResume sampleDir (sampleRequest true) 120000 w in
  reason (validateResumable (idPath ids) 120000 w) = "File too small (corrupted)"
  /\ fst out = Json 200 (BReady (clipId ids) (idFilename ids) (900 # 1048576))
  /\ files (snd out) !! idPath ids = Some (File 900 0)
  /\ unlinks (snd out) = []
  /\ spawns (snd out) = [].
Proof.
  intros ids w out. split; [vm_compute; reflexivity |].
  pose proof (clipResume_keeps_rejected_file sampleDir (sampleRequest true) 120000 w
                10 40 (File 900 0) eq_refl eq_refl eq_refl eq_refl) as H.
  cbn zeta in H.
  specialize (H ltac:(vm_compute; reflexivity) ltac:(vm_compute; reflexivity)
                ltac:(vm_compute; reflexivity)).
  destruct H as (Hans & Hfile & _ & _ & _ & Hun & Hsp).
  split; [exact Hans |]. split; [exact Hfile |]. split; [exact Hun | exact Hsp].
Defined.

(** ** Single flight *)

(** The half of single flight the code has: a resume request for a clip
    whose registry entry holds a process handle spawns nothing and reports
    the entry's percent and message. *)
Lemma clipResume_attaches (TEMP_DIR : string) (req : clip_request) (now : Z)
    (w : world) (start end_ : Z) (c : clip) :
  nonempty (r_url req) = true -> r_start req = Some start -> r_end req = Some end_ ->
  let ids := clipIds TEMP_DIR (r_url req) start end_ (or_default "best" (r_quality req)) in
  activeProc (clipId ids) w = Some c ->
  clipResume TEMP_DIR req now w
  = (Json 200 (BInProgress (clipId ids) (num_or_zero (percent c)) (message c)),
     ensureTempDir TEMP_DIR w).
Proof.
  intros Hurl Hs He ids Hact.
  unfold clipResume. rewrite Hs, He, Hurl. cbn [negb timeToSeconds].
  unfold getClipIdAndPath. fold ids.
  now rewrite activeProc_ensureTempDir, Hact.
Qed.

(** C1, the code at the inputs where it departs from single flight. Two
    background start requests for the same clip, the second while the
    worker of the first is alive: a second worker is spawned with the same
    output path, two workers are alive for the one clip id, and the
    registry entry now holds the second handle only. And one foreground
    resume request on an idle server: downloadClip is called twice, two
    workers are alive for the clip. *)
Theorem single_flight_broken_by_start_and_foreground_resume :
  let ids := clipIds sampleDir sampleUrl 10 40 "best" in
  let args := ytdlpArgs sampleUrl 10 40 "best" (idPath ids) in
  (let w1 := snd (clipPost sampleDir watchUrl (sampleRequest true) sampleInfo 1000
                    (initial ∅ ∅)) in
   let out := clipPost sampleDir watchUrl (sampleRequest true) sampleInfo 2000 w1 in
   workersOf (clipId ids) w1 = [1%nat]
   /\ (proc <$> activeProc (clipId ids) w1) = Some (Some 1%nat)
   /\ fst out = Json 200 (BStarted (clipId ids) (idFilename ids) None)
   /\ spawns (snd out) = [(1%nat, args); (2%nat, args)]
   /\ length (workersOf (clipId ids) (snd out)) = 2%nat
   /\ (proc <$> activeProc (clipId ids) (snd out)) = Some (Some 2%nat))
  /\ (let out := clipResume sampleDir (sampleRequest false) 1000 (initial ∅ ∅) in
      fst out = Awaiting 2
      /\ spawns (snd out) = [(1%nat, args); (2%nat, args)]
      /\ length (workersOf (clipId ids) (snd out)) = 2%nat).
Proof. vm_compute. repeat split. Qed.

(** ** A complete artifact *)

(** C4 as stated fails: POST /api/clip for the sample clip, with a 5 MB
    file already at its output path, answers 'started' and spawns a
    worker. *)
Lemma start_short_circuits_counterexample :
  ~ start_short_circuits sampleDir watchUrl (sampleRequest true) sampleInfo 120000
      (worldWithClip sampleDir (File 5242880 0)).
Proof.
  intros H. destruct H as [_ Hspawn].
  - vm_compute. eauto.
  - vm_compute. reflexivity.
  - vm_compute in Hspawn. discriminate Hspawn.
Qed.

Lemma resumeDetection_frame (ids : clip_ids) (now : Z) (w : world) :
  spawns (snd (resumeDetection ids now w)) = spawns w
  /\ nextPid (snd (resumeDetection ids now w)) = nextPid w.
Proof.
  unfold resumeDetection. destruct (files w !! idPath ids); [| now split].
  destruct (_ && _); [| now split].
  unfold spawns. cbn. rewrite omap_app. cbn. now rewrite app_nil_r.
Qed.

(** downloadClip spawns exactly one worker, whatever it finds. *)
Lemma downloadClip_spawns (D url : string) (s e : Z) (q : string) (bg : bool)
    (now : Z) (w : world) :
  spawns (snd (downloadClip D url s e q bg now w))
  = (spawns w ++ [(nextPid w, ytdlpArgs url s e q (idPath (clipIds D url s e q)))])%list
  /\ nextPid (snd (downloadClip D url s e q bg now w)) = S (nextPid w).
Proof.
  rewrite downloadClip_unfold. cbn [snd].
  destruct (resumeDetection_frame (clipIds D url s e q) now (ensureTempDir D w))
    as [Hsp Hn].
  destruct (ensureTempDir_effects D w) as [_ Hsp0].
  pose proof (proj1 (proj2 (proj2 (ensureTempDir_frame D w)))) as Hn0.
  split.
  - unfold spawns at 1. cbn. rewrite omap_app. cbn.
    fold (spawns (snd (resumeDetection (clipIds D url s e q) now (ensureTempDir D w)))).
    now rewrite Hsp, Hsp0, Hn, Hn0.
  - cbn. now rewrite Hn, Hn0.
Qed.

(** The start handler never looks at the registry or at the output path:
    every request it does not answer with an error spawns one worker. *)
Lemma clipPost_spawns (TEMP_DIR : string) (validateURL : string -> bool)
    (req : clip_request) (info : fetched) (now : Z) (w : world) :
  let out := clipPost TEMP_DIR validateURL req info now w in
  (forall http msg, fst out <> Json http (BError msg)) ->
  exists args,
    spawns (snd out) = (spawns w ++ [(nextPid w, args)])%list
    /\ In "--continue" args /\ In "--no-overwrites" args.
Proof.
  intros out Hok. subst out. revert Hok. unfold clipPost.
  set (url := r_url req). set (q := or_default "best" (r_quality req)).
  set (s := timeToSeconds (r_start req)). set (e := timeToSeconds (r_end req)).
  assert (forall bg w0, spawns w0 = spawns w -> nextPid w0 = nextPid w ->
            exists args,
              spawns (snd (downloadClip TEMP_DIR url s e q bg now w0))
              = (spawns w ++ [(nextPid w, args)])%list
              /\ In "--continue" args /\ In "--no-overwrites" args) as Hdl.
  { intros bg w0 Hsp Hn.
    exists (ytdlpArgs url s e q (idPath (clipIds TEMP_DIR url s e q))).
    rewrite (proj1 (downloadClip_spawns TEMP_DIR url s e q bg now w0)), Hsp, Hn.
    split; [reflexivity | cbn; tauto]. }
  assert (forall r : response * world,
            (forall http msg, fst r <> Json http (BError msg)) ->
            forall http msg w0, r <> (Json http (BError msg), w0)) as Hne
    by (intros r H http msg w0 ->; now apply (H http msg)).
  destruct (negb (nonempty url) || negb (validateURL url));
    [intros H; now destruct (Hne _ H _ _ _ eq_refl) |].
  destruct (s >=? e); [intros H; now destruct (Hne _ H _ _ _ eq_refl) |].
  destruct ((s <? 0) || (e <? 0)); [intros H; now destruct (Hne _ H _ _ _ eq_refl) |].
  destruct info as [err | v]; [intros H; now destruct (Hne _ H _ _ _ eq_refl) |].
  assert (exists args,
            spawns (snd (if or_default false (r_background req)
                         then let '(ids, w2) :=
                                getClipIdAndPath TEMP_DIR url s e q
                                  (wsBroadcast (Progress 0 "Starting")
                                     (set_currentProgress (0%Q, "Starting") w)) in
                              let '(_, w3) := downloadClip TEMP_DIR url s e q true now w2 in
                              (Json 200 (BStarted (clipId ids) (idFilename ids) None), w3)
                         else let '(pid, w2) :=
                                downloadClip TEMP_DIR url s e q false now
                                  (wsBroadcast (Progress 0 "Starting")
                                     (set_currentProgress (0%Q, "Starting") w)) in
                              (Awaiting pid, w2)))
            = (spawns w ++ [(nextPid w, args)])%list
            /\ In "--continue" args /\ In "--no-overwrites" args) as Hgo.
  { assert (spawns (wsBroadcast (Progress 0 "Starting")
                      (set_currentProgress (0%Q, "Starting") w)) = spawns w) as Hb.
    { unfold spawns. cbn. rewrite omap_app. cbn. now rewrite app_nil_r. }
    destruct (or_default false (r_background req)).
    - unfold getClipIdAndPath.
      destruct (downloadClip TEMP_DIR url s e q true now _) as [pid w3] eqn:Hd.
      cbn [snd]. replace w3 with (snd (downloadClip TEMP_DIR url s e q true now
        (ensureTempDir TEMP_DIR (wsBroadcast (Progress 0 "Starting")
           (set_currentProgress (0%Q, "Starting") w))))) by now rewrite Hd.
      apply Hdl.
      + now rewrite (proj2 (ensureTempDir_effects _ _)).
      + now rewrite (proj1 (proj2 (proj2 (ensureTempDir_frame _ _)))).
    - destruct (downloadClip TEMP_DIR url s e q false now _) as [pid w2] eqn:Hd.
      cbn [snd]. replace w2 with (snd (downloadClip TEMP_DIR url s e q false now
        (wsBroadcast (Progress 0 "Starting")
           (set_currentProgress (0%Q, "Starting") w)))) by now rewrite Hd.
      apply Hdl; [exact Hb | reflexivity]. }
  destruct (isLiveContent v); [intros H; now destruct (Hne _ H _ _ _ eq_refl) |].
  destruct (lengthSeconds v) as [duration |]; [| intros _; exact Hgo].
  destruct (e >? duration); [intros H; now destruct (Hne _ H _ _ _ eq_refl) |].
  intros _; exact Hgo.
Qed.

(** C4, amended. The short circuit is the resume handler's: with no worker
    active for the clip and a file at an output path free of '.part', it
    answers 'ready' (background) or sends the file (foreground) and spawns
    nothing. The start handler makes no such check: with no worker active
    for the clip, every request it does not answer with an error spawns
    one worker, handing it --continue and --no-overwrites. *)
Theorem complete_artifact_short_circuits_resume
    (TEMP_DIR : string) (validateURL : string -> bool) :
  (forall (req : clip_request) (now : Z) (w : world) (start end_ : Z) (st : file),
      nonempty (r_url req) = true ->
      r_start req = Some start -> r_end req = Some end_ ->
      let ids := clipIds TEMP_DIR (r_url req) start end_
                   (or_default "best" (r_quality req)) in
      activeProc (clipId ids) w = None ->
      files w !! idPath ids = Some st ->
      Js.includes (idPath ids) ".part" = false ->
      let out := clipResume TEMP_DIR req now w in
      fst out = (if or_default true (r_background req)
                 then Json 200 (BReady (clipId ids) (idFilename ids) (size st # 1048576))
                 else Download (idPath ids) (idFilename ids))
      /\ spawns (snd out) = spawns w)
  /\ (forall (req : clip_request) (info : fetched) (now : Z) (w : world),
      let ids := clipIds TEMP_DIR (r_url req) (timeToSeconds (r_start req))
                   (timeToSeconds (r_end req)) (or_default "best" (r_quality req)) in
      activeProc (clipId ids) w = None ->
      let out := clipPost TEMP_DIR validateURL req info now w in
      (forall http msg, fst out <> Json http (BError msg)) ->
      exists args,
        spawns (snd out) = (spawns w ++ [(nextPid w, args)])%list
        /\ In "--continue" args /\ In "--no-overwrites" args).
Proof.
  split.
  - intros req now w start end_ st Hurl Hs He ids Hact Hf Hp out. subst out.
    rewrite (clipResume_complete TEMP_DIR req now w start end_ st Hurl Hs He Hact Hf Hp).
    cbn [fst snd]. split; [reflexivity | apply ensureTempDir_effects].
  - intros req info now w ids _ out Hok.
    now apply clipPost_spawns.
Qed.

(** C4 amended, on the sample clip with a 5 MB file at its output path:
    resume answers 'ready', start spawns worker 1. *)
Lemma complete_artifact_short_circuits_resume_witness :
  let ids := clipIds sampleDir sampleUrl 10 40 "best" in
  let w := worldWithClip sampleDir (File 5242880 0) in
  (fst (clipResume sampleDir (sampleRequest true) 120000 w)
   = Json 200 (BReady (clipId ids) (idFilename ids) (5242880 # 1048576))
   /\ spawns (snd (clipResume sampleDir (sampleRequest true) 120000 w)) = spawns w)
  /\ (exists args,
        spawns (snd (clipPost sampleDir watchUrl (sampleRequest true) sampleInfo 120000 w))
        = (spawns w ++ [(nextPid w, args)])%list
        /\ In "--continue" args /\ In "--no-overwrites" args).
Proof.
  intros ids w. split.
  - apply (proj1 (complete_artifact_short_circuits_resume sampleDir watchUrl)
             (sampleRequest true) 120000 w 10 40 (File 5242880 0) eq_refl eq_refl eq_refl);
      vm_compute; reflexivity.
  - apply (proj2 (complete_artifact_short_circuits_resume sampleDir watchUrl)
             (sampleRequest true) sampleInfo 120000 w).
    + vm_compute. reflexivity.
    + intros http msg. vm_compute. discriminate.
Defined.

(** ** The end of a worker *)

Lemma append_ne_self (s t : string) : t <> EmptyString -> s ++ t <> s.
Proof.
  intros Ht. induction s as [| c s IH]; cbn; [exact Ht |].
  intros H. injection H as H. now apply IH.
Qed.

(** C7, amended. When the worker of a job exits with code 0 the promise
    resolves with the ids (output path, file name, extension) and no file
    is touched. With any other code, or none, the promise is rejected with
    an error whose message names the exit code and the signal only; the
    stderr tail is not in the error but goes into the diagnostic log and,
    when the registry holds an entry for the clip, into its [stderr]
    field. The log is written beside the output path and holds exit code,
    signal, timestamp, the resume information found at spawn time, the
    size of the file and 'Can resume: yes' exactly when that size is
    positive. The file at the output path stays as it is. *)
Theorem on_close_settles (pid : nat) (code : option Z) (signal : option string)
    (now : Z) (w : world) (j : job) :
  jobs w !! pid = Some j -> jsettled j = None ->
  let ids := jids j in
  let w' := on_close pid code signal now w in
  let logPath := idPath ids ++ ".yt-dlp.log" in
  (code = Some 0 ->
     (jsettled <$> jobs w' !! pid) = Some (Some (Resolved ids))
     /\ files w' = files w
     /\ trace w' = (trace w ++ [Broadcast (Progress (inject_Z 100) "Complete")])%list)
  /\ (code <> Some 0 ->
     let partialSize :=
       match files w !! idPath ids with Some st => size st | None => 0 end in
     let text :=
       String.concat Js.nl
         [ "Exit code: " ++ Js.nullable Js.numToString code
             ++ " signal: " ++ Js.nullable (fun s => s) signal;
           "Timestamp: " ++ Fmt.toISOString now;
           "Resume info: "
             ++ match jresumeInfo j with
                | Some ri => ri_sizeMB ri ++ " MB (" ++ ri_ageMinutes ri ++ "min old)"
                | None => "new download"
                end;
           "Partial file size: " ++ Fmt.toFixed 2 (partialSize # 1048576) ++ " MB";
           "Can resume: " ++ (if 0 <? partialSize then "yes" else "no");
           "--- stderr ---" ++ Js.nl ]
       ++ jstderrBuf j in
     (jsettled <$> jobs w' !! pid)
       = Some (Some (Rejected ("yt-dlp exited with code " ++ Js.nullable Js.numToString code
                                 ++ " signal " ++ Js.nullable (fun s => s) signal)))
     /\ trace w' = (trace w ++ [WriteFile logPath text])%list
     /\ files w' = <[logPath := File (Z.of_nat (String.length text)) now]> (files w)
     /\ files w' !! idPath ids = files w !! idPath ids
     /\ (forall c, activeClips w !! clipId ids = Some c ->
           (stderr <$> activeClips w' !! clipId ids) = Some (Some (jstderrBuf j))))
  /\ (forall c, activeClips w !! clipId ids = Some c ->
        (proc <$> activeClips w' !! clipId ids) = Some None).
Proof.
  intros Hj Hs ids w' logPath.
  assert (logPath <> idPath ids) as Hlog by (apply append_ne_self; discriminate).
  subst w'. unfold on_close. rewrite Hj. fold ids.
  assert (forall o (w1 : world),
            jobs w1 = <[pid := Job ids (jresumeInfo j) (jstderrBuf j) false (jsettled j)]> (jobs w) ->
            jobs (settle pid o w1) !! pid
            = Some (Job ids (jresumeInfo j) (jstderrBuf j) false (Some o))
            /\ files (settle pid o w1) = files w1
            /\ trace (settle pid o w1) = trace w1
            /\ activeClips (settle pid o w1) = activeClips w1) as Hsettle.
  { intros o w1 Hw1. unfold settle. rewrite Hw1, lookup_insert_eq. cbn. rewrite Hs.
    cbn. rewrite lookup_insert_eq. repeat split. }
  split; [| split].
  - intros ->. rewrite bool_decide_eq_true_2 by reflexivity.
    match goal with |- context [settle pid ?o ?w1] =>
      destruct (Hsettle o w1 ltac:(cbn; now destruct (activeClips w !! clipId ids))) as (Hjob & Hfiles & Htrace & _)
    end.
    rewrite Hjob, Hfiles, Htrace. cbn.
    destruct (activeClips w !! clipId ids); repeat split.
  - intros Hcode. rewrite bool_decide_eq_false_2 by exact Hcode.
    match goal with |- context [settle pid ?o ?w1] =>
      destruct (Hsettle o w1 ltac:(cbn; now destruct (activeClips w !! clipId ids))) as (Hjob & Hfiles & Htrace & Hact)
    end.
    rewrite Hjob, Hfiles, Htrace, Hact. cbn.
    destruct (activeClips w !! clipId ids) as [c |] eqn:Hc; cbn; repeat split.
    + now rewrite lookup_insert_ne.
    + intros c' _. now rewrite lookup_insert_eq.
    + now rewrite lookup_insert_ne.
    + intros c' Hc'. discriminate.
  - intros c Hc.
    destruct (bool_decide (code = Some 0)).
    + match goal with |- context [settle pid ?o ?w1] =>
        destruct (Hsettle o w1 ltac:(cbn; now destruct (activeClips w !! clipId ids))) as (_ & _ & _ & Hact)
      end.
      rewrite Hact. cbn. rewrite Hc. cbn. now rewrite lookup_insert_eq.
    + match goal with |- context [settle pid ?o ?w1] =>
        destruct (Hsettle o w1 ltac:(cbn; now destruct (activeClips w !! clipId ids))) as (_ & _ & _ & Hact)
      end.
      rewrite Hact. cbn. rewrite Hc. cbn. now rewrite lookup_insert_eq.
Qed.

(** C7 as stated fails: the sample worker wrote a line to stderr and exits
    with code 1; the error it rejects with reads 'yt-dlp exited with code
    1 signal null' and does not hold that line. *)
Lemma failure_carries_stderr_counterexample :
  ~ failure_carries_stderr 1 (Some 1) None 1700000000000 sampleFailing.
Proof.
  intros H.
  assert (jobs sampleFailing !! 1%nat = Some sampleJob) as Hj
    by (vm_compute; reflexivity).
  destruct (H sampleJob Hj eq_refl ltac:(discriminate)) as (j & m & Hj' & Hm & Hinc).
  vm_compute in Hj'. injection Hj' as <-.
  cbn in Hm. injection Hm as <-.
  vm_compute in Hinc. discriminate Hinc.
Qed.

(** C7 amended, on the same run. *)
Lemma on_close_settles_witness :
  let w' := on_close 1 (Some 1) None 1700000000000 sampleFailing in
  let ids := clipIds sampleDir sampleUrl 10 40 "best" in
  (jsettled <$> jobs w' !! 1%nat)
  = Some (Some (Rejected "yt-dlp exited with code 1 signal null"))
  /\ files w' !! idPath ids = files sampleFailing !! idPath ids
  /\ (jsettled <$>
        jobs (on_close 1 (Some 0) None 1700000000000 sampleFailing) !! 1%nat)
     = Some (Some (Resolved ids)).
Proof.
  intros w' ids.
  assert (jobs sampleFailing !! 1%nat = Some sampleJob) as Hj
    by (vm_compute; reflexivity).
  pose proof (on_close_settles 1 (Some 1) None 1700000000000 sampleFailing sampleJob
                Hj eq_refl) as (_ & Hfail & _).
  pose proof (on_close_settles 1 (Some 0) None 1700000000000 sampleFailing sampleJob
                Hj eq_refl) as (Hok & _).
  specialize (Hfail ltac:(discriminate)). specialize (Hok eq_refl).
  destruct Hfail as (Hrej & _ & _ & Hkeep & _). destruct Hok as (Hres & _).
  split; [exact Hrej | split; [exact Hkeep | exact Hres]].
Defined.

(** ** The clip service leaves the recordings alone *)












(** ** The life of a recording *)







(** scheduleRecordingCleanup touches the timer handle of an object only. *)
Lemma scheduleRecordingCleanup_status id w ref r :
  heap w !! ref = Some r ->
  exists r', heap (scheduleRecordingCleanup id w) !! ref = Some r'
             /\ rstatus r' = rstatus r /\ outPath r' = outPath r.
Proof.
  intros Hr. unfold scheduleRecordingCleanup.
  destruct (recordings w !! id) as [ref0 |]; [| eauto].
  destruct (heap w !! ref0) as [r0 |] eqn:Hr0; [| eauto].
  destruct (decide (ref0 = ref)) as [-> | Hne].
  - assert (r0 = r) as -> by congruence.
    destruct (cleanupTimer r); cbn; rewrite lookup_insert_eq; eauto.
  - destruct (cleanupTimer r0); cbn; rewrite lookup_insert_ne by exact Hne; eauto.
Qed.











Lemma on_rec_close_status ref code signal now w r :
  heap w !! ref = Some r ->
  exists r', heap (on_rec_close ref code signal now w) !! ref = Some r'
             /\ rstatus r' = (if bool_decide (code = Some 0) then finished else stopped)
             /\ outPath r' = outPath r.
Proof.
  intros Hr. unfold on_rec_close. rewrite Hr. cbn.
  match goal with |- context [scheduleRecordingCleanup ?id ?w1] =>
    destruct (scheduleRecordingCleanup_status id w1 ref
                (with_interval false (with_exit code signal now
                   (with_status (if bool_decide (code = Some 0) then finished else stopped) r))))
      as (r' & Hr' & Hs & Ho); [cbn; apply lookup_insert_eq |]
  end.
  exists r'. split; [exact Hr' | split; [exact Hs | exact Ho]].
Qed.

Lemma heap_wsBroadcast (m : ws_msg) (w : world) : heap (wsBroadcast m w) = heap w.
Proof. reflexivity. Qed.

Lemma stopRecording_finish_status ref id remuxed w r :
  heap w !! ref = Some r ->
  exists out r',
    fst (stopRecording_finish ref id remuxed w) = Some (id, out, finished)
    /\ heap (snd (stopRecording_finish ref id remuxed w)) !! ref = Some r'
    /\ rstatus r' = finished /\ outPath r' = out.
Proof.
  intros Hr. unfold stopRecording_finish. rewrite Hr.
  set (r1 := with_interval false r). set (w1 := set_rec ref r1 w).
  assert (forall r2 w2, heap w2 !! ref = Some r2 ->
            exists r4, heap (scheduleRecordingCleanup id
                               (set_rec ref (with_status finished r2) w2)) !! ref = Some r4
                       /\ rstatus r4 = finished
                       /\ outPath r4 = outPath r2) as Hend.
  { intros r2 w2 _.
    destruct (scheduleRecordingCleanup_status id
                (set_rec ref (with_status finished r2) w2) ref (with_status finished r2))
      as (r4 & H4 & Hs & Ho); [cbn; apply lookup_insert_eq |].
    exists r4. split; [exact H4 | split; [exact Hs | exact Ho]]. }
  destruct (files w1 !! outPath r1) as [f |]; [destruct remuxed as [g |] |];
    cbv beta iota zeta.
  - match goal with |- context [scheduleRecordingCleanup id (set_rec ref (with_status finished ?r2) ?w2)] =>
      destruct (Hend r2 w2) as (r4 & H4 & Hs & Ho); [cbn; apply lookup_insert_eq |]
    end.
    rewrite H4. cbn [fst snd]. rewrite heap_wsBroadcast. exists (outPath r4), r4.
    split; [reflexivity | split; [exact H4 | split; [exact Hs | reflexivity]]].
  - match goal with |- context [scheduleRecordingCleanup id (set_rec ref (with_status finished ?r2) ?w2)] =>
      destruct (Hend r2 w2) as (r4 & H4 & Hs & Ho); [cbn; apply lookup_insert_eq |]
    end.
    rewrite H4. cbn [fst snd]. rewrite heap_wsBroadcast. exists (outPath r4), r4.
    split; [reflexivity | split; [exact H4 | split; [exact Hs | reflexivity]]].
  - match goal with |- context [scheduleRecordingCleanup id (set_rec ref (with_status finished ?r2) ?w2)] =>
      destruct (Hend r2 w2) as (r4 & H4 & Hs & Ho); [cbn; apply lookup_insert_eq |]
    end.
    rewrite H4. cbn [fst snd]. rewrite heap_wsBroadcast. exists (outPath r4), r4.
    split; [reflexivity | split; [exact H4 | split; [exact Hs | reflexivity]]].
Qed.




Lemma scheduleRecordingCleanup_trace id w :
  trace (scheduleRecordingCleanup id w) = trace w.
Proof.
  unfold scheduleRecordingCleanup.
  destruct (recordings w !! id) as [ref |]; [| reflexivity].
  destruct (heap w !! ref) as [r |]; [| reflexivity].
  now destruct (cleanupTimer r).
Qed.

Lemma on_rec_close_trace ref code signal now w :
  exists t, trace (on_rec_close ref code signal now w) = (trace w ++ t)%list.
Proof.
  unfold on_rec_close. destruct (heap w !! ref) as [r |].
  - cbn. rewrite scheduleRecordingCleanup_trace. cbn. eauto.
  - exists []. now rewrite app_nil_r.
Qed.

Lemma stopRecording_finish_trace ref id remuxed w :
  exists t, trace (snd (stopRecording_finish ref id remuxed w)) = (trace w ++ t)%list.
Proof.
  unfold stopRecording_finish. destruct (heap w !! ref) as [r |].
  - cbn [set_rec set_heap files].
    destruct (files w !! outPath (with_interval false r)) as [f |];
      [destruct remuxed as [g |] |]; cbv beta iota zeta; cbn [snd];
      cbn [wsBroadcast emit trace]; rewrite scheduleRecordingCleanup_trace; cbn;
      rewrite <- ?app_assoc; eauto.
  - exists []. now rewrite app_nil_r.
Qed.

(** ** Stopping a recording *)

(** C9, amended. stopRecording on an id the registry does not know throws
    'Recording not found', on a recording whose status is no longer
    [recording] it throws 'Recording not active'; either way the state is
    exactly what it was. On an active recording it signals the worker and,
    whether or not the worker is seen to end during the wait and whether
    or not the remux works, resolves with status [finished]: that, not
    [stopped], is the status the recording is left with. [stopped] is what
    the close handler puts in between, when the worker is seen to end on
    the signal or with a code other than 0. *)
Theorem stopRecording_contract (id : string) (exit : option exit_report)
    (remuxed : option file) (w : world) :
  (recordings w !! id = None ->
     stopRecording id exit remuxed w = (inl "Recording not found", w))
  /\ (forall ref r,
        recordings w !! id = Some ref -> heap w !! ref = Some r ->
        rstatus r <> recording ->
        stopRecording id exit remuxed w = (inl "Recording not active", w))
  /\ (forall ref r,
        recordings w !! id = Some ref -> heap w !! ref = Some r ->
        rstatus r = recording ->
        let out := stopRecording id exit remuxed w in
        (exists path r',
            fst out = inr (id, path, finished)
            /\ heap (snd out) !! ref = Some r'
            /\ rstatus r' = finished /\ outPath r' = path
            /\ In (Kill (rproc r) "user_stop") (trace (snd out)))
        /\ (forall code signal now,
              exit = Some (code, signal, now) -> code <> Some 0 ->
              exists r1,
                heap (on_rec_close ref code signal now (snd (stopRecording_begin id w)))
                  !! ref = Some r1
                /\ rstatus r1 = stopped)).
Proof.
  split; [| split].
  - intros Hid. unfold stopRecording, stopRecording_begin. now rewrite Hid.
  - intros ref r Hid Hr Hs. unfold stopRecording, stopRecording_begin.
    rewrite Hid, Hr. destruct (rstatus r); [congruence | reflexivity | reflexivity].
  - intros ref r Hid Hr Hs out. subst out. split; cycle 1.
    { intros code signal now _ Hcode.
      unfold stopRecording_begin. rewrite Hid, Hr, Hs. cbn [snd].
      destruct (on_rec_close_status ref code signal now
                  (killChildProcess (rproc r) "user_stop" w) r Hr)
        as (r1 & Hr1 & Hst & _).
      exists r1. split; [exact Hr1 |].
      now rewrite Hst, bool_decide_eq_false_2. }
    unfold stopRecording, stopRecording_begin. rewrite Hid, Hr, Hs.
    set (w1 := killChildProcess (rproc r) "user_stop" w).
    assert (heap w1 !! ref = Some r) as Hr1 by exact Hr.
    assert (In (Kill (rproc r) "user_stop") (trace w1)) as Hk1
      by (cbn; apply in_or_app; right; now left).
    set (w2 := match exit with
               | Some (code, signal, now) => on_rec_close ref code signal now w1
               | None => w1
               end).
    assert (exists r2, heap w2 !! ref = Some r2) as [r2 Hr2].
    { subst w2. destruct exit as [[[code signal] now] |]; [| eauto].
      destruct (on_rec_close_status ref code signal now w1 r Hr1) as (r2 & H2 & _). eauto. }
    assert (In (Kill (rproc r) "user_stop") (trace w2)) as Hk2.
    { subst w2. destruct exit as [[[code signal] now] |]; [| exact Hk1].
      destruct (on_rec_close_trace ref code signal now w1) as [t ->].
      apply in_or_app. now left. }
    destruct (stopRecording_finish_status ref id remuxed w2 r2 Hr2)
      as (path & r' & Hfst & Hsnd & Hst & Hpath).
    destruct (stopRecording_finish_trace ref id remuxed w2) as [t Ht].
    destruct (stopRecording_finish ref id remuxed w2) as [res w3].
    cbn [fst snd] in Hfst, Hsnd, Ht. subst res. cbn [fst snd].
    exists path, r'. repeat split; try assumption.
    rewrite Ht. apply in_or_app. now left.
Qed.

(** C9 as stated fails in its last clause: the sample recording is stopped
    for the first time, its worker ends on SIGINT during the wait; when
    the call returns the status is [finished], not [stopped]. *)
Lemma first_stop_gives_stopped_counterexample :
  ~ first_stop_gives_stopped sampleRecId
      (Some (None, Some "SIGINT", 1700000060500)) None sampleRecording.
Proof.
  intros H. unfold first_stop_gives_stopped in H.
  destruct (heap sampleRecording !! 1%nat) as [r |] eqn:Hr;
    [| vm_compute in Hr; discriminate Hr].
  assert (rstatus r = recording) as Hs
    by (vm_compute in Hr; injection Hr as <-; reflexivity).
  destruct (H 1%nat r ltac:(vm_compute; reflexivity) Hr Hs) as (r' & Hr' & Hs').
  vm_compute in Hr'. injection Hr' as <-. discriminate Hs'.
Qed.

(** C9 amended, on the sample recording: the first stop resolves with
    status [finished], a second stop and a stop of an unknown id throw and
    change nothing. *)
Lemma stopRecording_contract_witness :
  let stop1 := stopRecording sampleRecId (Some (None, Some "SIGINT", 1700000060500))
                 None sampleRecording in
  (exists path r',
      fst stop1 = inr (sampleRecId, path, finished)
      /\ heap (snd stop1) !! 1%nat = Some r' /\ rstatus r' = finished)
  /\ stopRecording sampleRecId None None (snd stop1)
     = (inl "Recording not active", snd stop1)
  /\ stopRecording "rec_0_0" None None sampleRecording
     = (inl "Recording not found", sampleRecording).
Proof.
  intros stop1.
  destruct (heap sampleRecording !! 1%nat) as [r |] eqn:Hr;
    [| vm_compute in Hr; discriminate Hr].
  assert (rstatus r = recording) as Hs
    by (vm_compute in Hr; injection Hr as <-; reflexivity).
  destruct (proj2 (proj2 (stopRecording_contract sampleRecId
                            (Some (None, Some "SIGINT", 1700000060500)) None
                            sampleRecording))
              1%nat r ltac:(vm_compute; reflexivity) Hr Hs)
    as ((path & r' & Hfst & Hsnd & Hst & _ & _) & _).
  fold stop1 in Hfst, Hsnd.
  split; [exists path, r'; split; [exact Hfst | split; [exact Hsnd | exact Hst]] |].
  split.
  - apply (proj1 (proj2 (stopRecording_contract sampleRecId None None (snd stop1)))
             1%nat r' ltac:(vm_compute; reflexivity) Hsnd).
    rewrite Hst. discriminate.
  - apply (proj1 (stopRecording_contract "rec_0_0" None None sampleRecording)).
    vm_compute. reflexivity.
Defined.
